(** * Polygon persistence service: a shallow embedding and its properties

    The development follows [app/models.py] and [app/polygon_service.py].
    Python classes become records inside a module of the same name, the
    SQLModel session becomes a small state-and-exception monad over the
    table of polygons, and every service method is the [try]/[except]
    wrapper around its [with get_session()] body, as in the source. *)

From Stdlib Require Import ZArith String Ascii List Floats.PrimFloat Lia.
From stdpp Require Import base option list gmap strings sorting.

Open Scope Z_scope.
Set Warnings "-register-all".

(** ** Values carried by a polygon *)

(** [Dict[str, Any]] restricted to JSON-compatible values. A Python [dict]
    compares without regard to insertion order, which is the equality of
    [gmap]. *)
Inductive json : Type :=
| JNull
| JBool (b : bool)
| JInt (n : Z)
| JFloat (f : float)
| JStr (s : string)
| JList (l : list json)
| JDict (m : gmap string json).

(** [List[List[List[float]]]]: rings of points, a point being the list
    [[longitude, latitude]]. *)
Abbreviation Coordinates := (list (list (list float))).
Abbreviation Properties := (gmap string json).

(** ** [datetime] *)

(** A naive [datetime] is the tuple of its fields; comparison is the
    lexicographic order of that tuple. *)
Record datetime : Type := mk_datetime {
  year : Z; month : Z; day : Z;
  hour : Z; minute : Z; second : Z; microsecond : Z
}.

Definition datetime_key (d : datetime) : list Z :=
  [year d; month d; day d; hour d; minute d; second d; microsecond d].

Fixpoint lex_compare (a b : list Z) : comparison :=
  match a, b with
  | [], [] => Eq
  | [], _ :: _ => Lt
  | _ :: _, [] => Gt
  | x :: a', y :: b' =>
      match x ?= y with
      | Eq => lex_compare a' b'
      | c => c
      end
  end.

Definition datetime_compare (a b : datetime) : comparison :=
  lex_compare (datetime_key a) (datetime_key b).

Definition datetime_leb (a b : datetime) : bool :=
  match datetime_compare a b with Gt => false | _ => true end.

(** [a <= b] on datetimes. *)
Definition datetime_le (a b : datetime) : Prop := datetime_leb a b = true.

(** The fields of a datetime that Python can construct. *)
Definition datetime_valid (d : datetime) : Prop :=
  1 <= year d <= 9999 /\ 1 <= month d <= 12 /\ 1 <= day d <= 31 /\
  0 <= hour d <= 23 /\ 0 <= minute d <= 59 /\ 0 <= second d <= 59 /\
  0 <= microsecond d <= 999999.

Definition digit (d : Z) : ascii := ascii_of_nat (48 + Z.to_nat d).

(** ["%0<width>d" % n] for a number of at most [width] digits. *)
Fixpoint zfill (width : nat) (n : Z) : string :=
  match width with
  | O => EmptyString
  | S w => zfill w (n / 10) +:+ String (digit (n mod 10)) EmptyString
  end.

(** [datetime.isoformat()]: the fraction is printed only when the
    microsecond field is not zero. *)
Definition isoformat (d : datetime) : string :=
  zfill 4 (year d) +:+ "-" +:+ zfill 2 (month d) +:+ "-" +:+ zfill 2 (day d)
  +:+ "T" +:+ zfill 2 (hour d) +:+ ":" +:+ zfill 2 (minute d)
  +:+ ":" +:+ zfill 2 (second d)
  +:+ (if microsecond d =? 0 then EmptyString
       else "." +:+ zfill 6 (microsecond d)).

(** ** [str.strip] and [str.isspace] *)

(** Characters are the code points below 256; these are the ones for which
    [str.isspace] holds. *)
Definition isspace (c : ascii) : bool :=
  let n := nat_of_ascii c in
  ((9 <=? n) && (n <=? 13))%nat || ((28 <=? n) && (n <=? 32))%nat
  || (n =? 133)%nat || (n =? 160)%nat.

Fixpoint lstrip (s : string) : string :=
  match s with
  | EmptyString => EmptyString
  | String c s' => if isspace c then lstrip s' else s
  end.

Fixpoint rstrip (s : string) : string :=
  match s with
  | EmptyString => EmptyString
  | String c s' =>
      match rstrip s' with
      | EmptyString => if isspace c then EmptyString else String c EmptyString
      | t => String c t
      end
  end.

Definition strip (s : string) : string := rstrip (lstrip s).

(** ** [app/models.py] *)

Module Polygon.
(** The persistent model ([table=True]): construction and attribute
    assignment are not validated. *)
Record t : Type := mk {
  id : option Z;
  name : string;
  coordinates : Coordinates;
  properties : Properties;
  created_at : datetime;
  updated_at : option datetime
}.

Definition set_id (v : option Z) (p : t) : t :=
  mk v (name p) (coordinates p) (properties p) (created_at p) (updated_at p).
Definition set_name (v : string) (p : t) : t :=
  mk (id p) v (coordinates p) (properties p) (created_at p) (updated_at p).
Definition set_coordinates (v : Coordinates) (p : t) : t :=
  mk (id p) (name p) v (properties p) (created_at p) (updated_at p).
Definition set_properties (v : Properties) (p : t) : t :=
  mk (id p) (name p) (coordinates p) v (created_at p) (updated_at p).
Definition set_updated_at (v : option datetime) (p : t) : t :=
  mk (id p) (name p) (coordinates p) (properties p) (created_at p) v.
End Polygon.

Module PolygonCreate.
Record t : Type := mk {
  name : string;
  coordinates : Coordinates;
  properties : Properties
}.

(** What [min_items=1] on [coordinates] asks for. *)
Definition min_items_declared (c : Coordinates) : bool := (1 <=? length c)%nat.

(** The field constraints checked when the schema is constructed:
    [min_length=1] and [max_length=255] on [name]. [min_items] is a keyword
    of the earlier validation library; the validation these schemas run on
    knows [min_length] for lists instead, carries [min_items] along and
    checks nothing for it: an empty list of rings passes. *)
Definition validate (o : t) : bool :=
  (1 <=? String.length (name o))%nat
  && (String.length (name o) <=? 255)%nat.

(** [PolygonCreate(name=..., coordinates=..., properties=...)];
    [properties] may be left out and is then [{}]. The result [None] stands
    for the validation error. *)
Definition init (n : string) (c : Coordinates) (p : option Properties) : option t :=
  let o := mk n c (default ∅ p) in if validate o then Some o else None.
End PolygonCreate.

Module PolygonUpdate.
Record t : Type := mk {
  name : option string;
  coordinates : option Coordinates;
  properties : option Properties
}.

(** Constraints apply to the fields that are not [None]: [min_length=1]
    and [max_length=255] on [name]. As in [PolygonCreate], [min_items=1] on
    [coordinates] checks nothing. *)
Definition validate (o : t) : bool :=
  match name o with
  | Some n => (1 <=? String.length n)%nat && (String.length n <=? 255)%nat
  | None => true
  end.

Definition init (n : option string) (c : option Coordinates)
    (p : option Properties) : option t :=
  let o := mk n c p in if validate o then Some o else None.
End PolygonUpdate.

Module PolygonResponse.
Record t : Type := mk {
  id : Z;
  name : string;
  coordinates : Coordinates;
  properties : Properties;
  created_at : string;
  updated_at : option string
}.

Definition from_polygon (polygon : Polygon.t) : t :=
  mk (match Polygon.id polygon with Some i => i | None => 0 end)
     (Polygon.name polygon)
     (Polygon.coordinates polygon)
     (Polygon.properties polygon)
     (isoformat (Polygon.created_at polygon))
     (match Polygon.updated_at polygon with
      | Some u => Some (isoformat u)
      | None => None
      end).
End PolygonResponse.

Module PolygonListResponse.
Record t : Type := mk {
  polygons : list PolygonResponse.t;
  total : Z
}.
End PolygonListResponse.

(** ** The storage collaborator *)

(** Modelled from the spec: [app/database.py] ([get_session],
    [create_tables], [reset_db]) and the relational engine behind it are
    not part of the sources. The table is "keyed by an auto-increment
    identifier, storing one row per polygon", columns as in the data model;
    JSON columns hold the JSON-compatible value they were given. *)
Module Row.
Record t : Type := mk {
  name : string;
  coordinates : Coordinates;
  properties : Properties;
  created_at : datetime;
  updated_at : option datetime
}.
End Row.

Record Database : Type := mk_Database {
  table : gmap Z Row.t;   (* primary key |-> row *)
  next_id : Z             (* the identifier the next INSERT receives *)
}.

(** The table after [create_tables()] / [reset_db()]. *)
Definition empty_db : Database := mk_Database ∅ 1.

Definition to_row (p : Polygon.t) : Row.t :=
  Row.mk (Polygon.name p) (Polygon.coordinates p) (Polygon.properties p)
         (Polygon.created_at p) (Polygon.updated_at p).

Definition of_row (i : Z) (r : Row.t) : Polygon.t :=
  Polygon.mk (Some i) (Row.name r) (Row.coordinates r) (Row.properties r)
             (Row.created_at r) (Row.updated_at r).

(** ** Exceptions and the environment of a call *)

(** The calls of a service method that reach the storage layer. *)
Inductive StorageOp : Type :=
| OpOpen | OpGet | OpExec | OpAdd | OpDelete | OpCommit | OpRefresh.

Inductive ErrKind : Type :=
| OperationalError      (* connectivity *)
| IntegrityError        (* constraint violation *)
| StaleDataError
| InvalidRequestError.

(** Everything here derives from Python's [Exception]. *)
Inductive exn : Type :=
| StorageError (op : StorageOp) (k : ErrKind)
| AttributeError.

Inductive Outcome (A : Type) : Type :=
| Return (a : A)
| Raise (e : exn).
Arguments Return {A} a.
Arguments Raise {A} e.

(** What a call cannot control: the reading of [datetime.utcnow()] and the
    storage calls at which the storage layer raises. *)
Record Env : Type := mk_Env {
  utcnow : datetime;
  faults : StorageOp -> bool
}.

Definition no_faults : StorageOp -> bool := fun _ => false.
#[global] Instance StorageOp_eq_dec : EqDecision StorageOp.
Proof. solve_decision. Defined.

(** The storage layer raises at [op] and nowhere else. *)
Definition fault_at (op : StorageOp) : StorageOp -> bool :=
  fun o => bool_decide (o = op).

(** A call during which the storage layer works. *)
Definition healthy (now : datetime) : Env := mk_Env now no_faults.

(** ** The session *)

(** Python objects of class [Polygon] live in the session's object heap; a
    [ref] is the identity of one of them. Each carries the state the ORM
    tracks for it. *)
Inductive ObjState : Type :=
| Transient | Pending | Persistent | Deleted | Detached.

Abbreviation ref := nat.

Record Session : Type := mk_Session {
  db : Database;                          (* committed contents *)
  objects : list (ObjState * Polygon.t)   (* heap, indexed by [ref] *)
}.

Definition Sess (A : Type) : Type := Env -> Session -> Outcome A * Session.
Definition Service (A : Type) : Type := Env -> Database -> Outcome A * Database.

#[global] Instance Sess_ret : MRet Sess :=
  fun A a _ s => (Return a, s).
#[global] Instance Sess_bind : MBind Sess :=
  fun A B f m env s =>
    match m env s with
    | (Return a, s') => f a env s'
    | (Raise e, s') => (Raise e, s')
    end.

#[global] Instance Service_ret : MRet Service :=
  fun A a _ d => (Return a, d).

(** A primitive step given by its effect on the session. *)
Definition sess {A : Type} (f : Env -> Session -> Outcome A * Session) : Sess A := f.

Definition raise {A : Type} (e : exn) : Sess A := sess (fun _ s => (Raise e, s)).

(** The storage layer raises here when the environment says so. *)
Definition storage_call (op : StorageOp) : Sess unit :=
  fun env s =>
    if faults env op then (Raise (StorageError op OperationalError), s)
    else (Return tt, s).

Definition alloc (st : ObjState) (p : Polygon.t) : Sess ref :=
  fun _ s =>
    (Return (length (objects s)),
     mk_Session (db s) (objects s ++ [(st, p)])).

(** Reading the attributes of an object. *)
Definition deref (r : ref) : Sess Polygon.t :=
  fun _ s =>
    match objects s !! r with
    | Some (_, p) => (Return p, s)
    | None => (Raise AttributeError, s)
    end.

(** Attribute assignment [polygon.x = v]. *)
Definition setattr (r : ref) (f : Polygon.t -> Polygon.t) : Sess unit :=
  fun _ s =>
    match objects s !! r with
    | Some (st, p) => (Return tt, mk_Session (db s) (<[r := (st, f p)]> (objects s)))
    | None => (Raise AttributeError, s)
    end.

(** [Polygon(name=..., coordinates=..., properties=...)]: [id] and
    [updated_at] take their default [None], [created_at] its
    [default_factory], [datetime.utcnow]. *)
Definition Polygon_init (n : string) (c : Coordinates) (p : Properties) : Sess ref :=
  fun env s => alloc Transient (Polygon.mk None n c p (utcnow env) None) env s.

(** [Polygon.update_timestamp]. *)
Definition update_timestamp (self : ref) : Sess unit :=
  fun env s => setattr self (Polygon.set_updated_at (Some (utcnow env))) env s.

(** [session.add]: a transient object becomes pending; an object already
    in the session stays as it is. *)
Definition session_add (r : ref) : Sess unit :=
  storage_call OpAdd;;
  sess (fun _ s =>
    match objects s !! r with
    | Some (Transient, p) =>
        (Return tt, mk_Session (db s) (<[r := (Pending, p)]> (objects s)))
    | Some _ => (Return tt, s)
    | None => (Raise AttributeError, s)
    end).

(** [session.get(Polygon, polygon_id)]. *)
Definition session_get (polygon_id : Z) : Sess (option ref) :=
  storage_call OpGet;;
  sess (fun env s =>
    match table (db s) !! polygon_id with
    | None => (Return None, s)
    | Some row =>
        match alloc Persistent (of_row polygon_id row) env s with
        | (Return r, s') => (Return (Some r), s')
        | (Raise e, s') => (Raise e, s')
        end
    end).

(** [session.delete]. *)
Definition session_delete (r : ref) : Sess unit :=
  storage_call OpDelete;;
  sess (fun _ s =>
    match objects s !! r with
    | Some (Persistent, p) =>
        (Return tt, mk_Session (db s) (<[r := (Deleted, p)]> (objects s)))
    | Some _ => (Raise (StorageError OpDelete InvalidRequestError), s)
    | None => (Raise AttributeError, s)
    end).

(** The statement one object contributes to the flush of a commit. An
    INSERT without a key takes the next identifier of the table; a
    duplicate key is a constraint violation; an UPDATE or DELETE that finds
    no row is a stale-data error. *)
Definition flush_one (st : ObjState) (p : Polygon.t) (d : Database)
    : Outcome ((ObjState * Polygon.t) * Database) :=
  match st with
  | Pending =>
      let i := match Polygon.id p with Some i => i | None => next_id d end in
      let n := match Polygon.id p with Some _ => next_id d | None => next_id d + 1 end in
      match table d !! i with
      | Some _ => Raise (StorageError OpCommit IntegrityError)
      | None =>
          Return ((Persistent, Polygon.set_id (Some i) p),
                  mk_Database (<[i := to_row p]> (table d)) n)
      end
  | Persistent =>
      match Polygon.id p with
      | Some i =>
          match table d !! i with
          | Some _ =>
              Return ((Persistent, p),
                      mk_Database (<[i := to_row p]> (table d)) (next_id d))
          | None => Raise (StorageError OpCommit StaleDataError)
          end
      | None => Raise (StorageError OpCommit InvalidRequestError)
      end
  | Deleted =>
      match Polygon.id p with
      | Some i =>
          match table d !! i with
          | Some _ =>
              Return ((Detached, p),
                      mk_Database (delete i (table d)) (next_id d))
          | None => Raise (StorageError OpCommit StaleDataError)
          end
      | None => Raise (StorageError OpCommit InvalidRequestError)
      end
  | Transient | Detached => Return ((st, p), d)
  end.

Fixpoint flush (objs : list (ObjState * Polygon.t)) (d : Database)
    : Outcome (list (ObjState * Polygon.t) * Database) :=
  match objs with
  | [] => Return ([], d)
  | (st, p) :: rest =>
      match flush_one st p d with
      | Raise e => Raise e
      | Return (o, d') =>
          match flush rest d' with
          | Raise e => Raise e
          | Return (os, d'') => Return (o :: os, d'')
          end
      end
  end.

(** [session.commit]: the flush is one transaction; when it raises, the
    committed contents stay as they were. *)
Definition session_commit : Sess unit :=
  storage_call OpCommit;;
  sess (fun _ s =>
    match flush (objects s) (db s) with
    | Return (objs, d) => (Return tt, mk_Session d objs)
    | Raise e => (Raise e, s)
    end).

(** [session.refresh]: reload the attributes of a persistent object from
    its row. *)
Definition session_refresh (r : ref) : Sess unit :=
  storage_call OpRefresh;;
  sess (fun _ s =>
    match objects s !! r with
    | Some (Persistent, p) =>
        match Polygon.id p with
        | Some i =>
            match table (db s) !! i with
            | Some row =>
                (Return tt,
                 mk_Session (db s) (<[r := (Persistent, of_row i row)]> (objects s)))
            | None => (Raise (StorageError OpRefresh InvalidRequestError), s)
            end
        | None => (Raise (StorageError OpRefresh InvalidRequestError), s)
        end
    | Some _ => (Raise (StorageError OpRefresh InvalidRequestError), s)
    | None => (Raise AttributeError, s)
    end).

(** [ORDER BY created_at DESC]: [a] may come before [b]. *)
Definition created_desc (a b : Z * Row.t) : Prop :=
  datetime_le (Row.created_at b.2) (Row.created_at a.2).

#[global] Instance created_desc_dec : RelDecision created_desc.
Proof. intros a b. unfold created_desc, datetime_le. apply _. Defined.

(** [select(Polygon).order_by(desc(Polygon.created_at))]. The order among
    rows of equal [created_at] is the engine's choice; here it is the one
    [merge_sort] gives on the listing of the table. *)
Definition select_order_by_created_at_desc (d : Database) : list (Z * Row.t) :=
  merge_sort created_desc (map_to_list (table d)).

(** [session.exec(statement).all()]. *)
Definition session_exec_all : Sess (list ref) :=
  storage_call OpExec;;
  sess (fun env s =>
    mapM (fun ir : Z * Row.t => alloc Persistent (of_row ir.1 ir.2))
         (select_order_by_created_at_desc (db s)) env s).

(** [with get_session() as session: body]. Modelled from the spec: "each
    operation acquires a scoped connection/session for just the duration of
    that call, with guaranteed release afterward regardless of outcome";
    what was not committed is dropped with the session, and an exception of
    the body leaves the block. *)
Definition with_session {A : Type} (body : Sess A) : Service A :=
  fun env d =>
    if faults env OpOpen then (Raise (StorageError OpOpen OperationalError), d)
    else
      match body env (mk_Session d []) with
      | (r, s) => (r, db s)
      end.

(** [try: body except Exception as e: handler]. *)
Definition try_except {A : Type} (body : Service A) (handler : exn -> Service A)
    : Service A :=
  fun env d =>
    match body env d with
    | (Return a, d') => (Return a, d')
    | (Raise e, d') => handler e env d'
    end.

(** ** [app/polygon_service.py] *)

(** Every method is [try: with get_session() as session: <body> except
    Exception as e: logger.error(...); return <value>]. The log record has
    no effect on the returned value or on the table and is left out. *)
Module PolygonService.

Definition create_polygon_body (polygon_data : PolygonCreate.t)
    : Sess (option PolygonResponse.t) :=
  polygon ← Polygon_init (PolygonCreate.name polygon_data)
                         (PolygonCreate.coordinates polygon_data)
                         (PolygonCreate.properties polygon_data);
  session_add polygon;;
  session_commit;;
  session_refresh polygon;;
  p ← deref polygon;
  match Polygon.id p with
  | None => mret None
  | Some _ => mret (Some (PolygonResponse.from_polygon p))
  end.

Definition create_polygon (polygon_data : PolygonCreate.t)
    : Service (option PolygonResponse.t) :=
  try_except (with_session (create_polygon_body polygon_data))
             (fun _ => mret None).

Definition get_polygon_body (polygon_id : Z) : Sess (option PolygonResponse.t) :=
  found ← session_get polygon_id;
  match found with
  | None => mret None
  | Some polygon =>
      p ← deref polygon;
      mret (Some (PolygonResponse.from_polygon p))
  end.

Definition get_polygon (polygon_id : Z) : Service (option PolygonResponse.t) :=
  try_except (with_session (get_polygon_body polygon_id))
             (fun _ => mret None).

Definition list_polygons_body : Sess PolygonListResponse.t :=
  polygons ← session_exec_all;
  polygon_responses ←
    mapM (fun polygon => p ← deref polygon;
                         mret (PolygonResponse.from_polygon p)) polygons;
  mret (PolygonListResponse.mk polygon_responses
                               (Z.of_nat (length polygon_responses))).

Definition list_polygons : Service PolygonListResponse.t :=
  try_except (with_session list_polygons_body)
             (fun _ => mret (PolygonListResponse.mk [] 0)).

Definition update_polygon_body (polygon_id : Z) (polygon_data : PolygonUpdate.t)
    : Sess (option PolygonResponse.t) :=
  found ← session_get polygon_id;
  match found with
  | None => mret None
  | Some polygon =>
      match PolygonUpdate.name polygon_data with
      | Some v => setattr polygon (Polygon.set_name v)
      | None => mret tt
      end;;
      match PolygonUpdate.coordinates polygon_data with
      | Some v => setattr polygon (Polygon.set_coordinates v)
      | None => mret tt
      end;;
      match PolygonUpdate.properties polygon_data with
      | Some v => setattr polygon (Polygon.set_properties v)
      | None => mret tt
      end;;
      update_timestamp polygon;;
      session_add polygon;;
      session_commit;;
      session_refresh polygon;;
      p ← deref polygon;
      mret (Some (PolygonResponse.from_polygon p))
  end.

Definition update_polygon (polygon_id : Z) (polygon_data : PolygonUpdate.t)
    : Service (option PolygonResponse.t) :=
  try_except (with_session (update_polygon_body polygon_id polygon_data))
             (fun _ => mret None).

Definition delete_polygon_body (polygon_id : Z) : Sess bool :=
  found ← session_get polygon_id;
  match found with
  | None => mret false
  | Some polygon =>
      session_delete polygon;;
      session_commit;;
      mret true
  end.

Definition delete_polygon (polygon_id : Z) : Service bool :=
  try_except (with_session (delete_polygon_body polygon_id))
             (fun _ => mret false).

Definition polygon_exists_body (polygon_id : Z) : Sess bool :=
  found ← session_get polygon_id;
  mret (match found with Some _ => true | None => false end).

Definition polygon_exists (polygon_id : Z) : Service bool :=
  try_except (with_session (polygon_exists_body polygon_id))
             (fun _ => mret false).

End PolygonService.
Import PolygonService.

(** ** Calls, reachable tables and the vocabulary of the statements *)

(** One call of one of the five operations of the service. *)
Inductive Call : Type :=
| Create (polygon_data : PolygonCreate.t)
| Get (polygon_id : Z)
| List
| Update (polygon_id : Z) (polygon_data : PolygonUpdate.t)
| Delete (polygon_id : Z).

Inductive Result : Type :=
| RPolygon (r : option PolygonResponse.t)
| RList (r : PolygonListResponse.t)
| RBool (b : bool).

Definition service_map {A B : Type} (f : A -> B) (m : Service A) : Service B :=
  fun env d =>
    match m env d with
    | (Return a, d') => (Return (f a), d')
    | (Raise e, d') => (Raise e, d')
    end.

(** The service method a call runs. *)
Definition invoke (c : Call) : Service Result :=
  match c with
  | Create polygon_data => service_map RPolygon (create_polygon polygon_data)
  | Get polygon_id => service_map RPolygon (get_polygon polygon_id)
  | List => service_map RList list_polygons
  | Update polygon_id polygon_data =>
      service_map RPolygon (update_polygon polygon_id polygon_data)
  | Delete polygon_id => service_map RBool (delete_polygon polygon_id)
  end.

(** The [with] block of that method, before the [except] clause sees its
    outcome. *)
Definition guarded_block (c : Call) : Service Result :=
  match c with
  | Create polygon_data =>
      service_map RPolygon (with_session (create_polygon_body polygon_data))
  | Get polygon_id => service_map RPolygon (with_session (get_polygon_body polygon_id))
  | List => service_map RList (with_session list_polygons_body)
  | Update polygon_id polygon_data =>
      service_map RPolygon (with_session (update_polygon_body polygon_id polygon_data))
  | Delete polygon_id => service_map RBool (with_session (delete_polygon_body polygon_id))
  end.

(** The value each method returns from its [except] clause. *)
Definition unsuccessful (c : Call) : Result :=
  match c with
  | Create _ | Get _ | Update _ _ => RPolygon None
  | List => RList (PolygonListResponse.mk [] 0)
  | Delete _ => RBool false
  end.

(** Methods that call [session.refresh] after [session.commit]. *)
Definition refreshes (c : Call) : bool :=
  match c with
  | Create _ | Update _ _ => true
  | _ => false
  end.

(** The request of a call passed the validation of its schema. *)
Definition valid_call (c : Call) : Prop :=
  match c with
  | Create polygon_data => PolygonCreate.validate polygon_data = true
  | Update _ polygon_data => PolygonUpdate.validate polygon_data = true
  | _ => True
  end.

(** Tables the service can produce from the empty one, whatever the clock
    reads and wherever the storage layer fails. *)
Inductive reachable : Database -> Prop :=
| reachable_empty : reachable empty_db
| reachable_step (c : Call) (env : Env) (d : Database) :
    reachable d -> valid_call c -> reachable (invoke c env d).2.

(** Keys are positive and below the next identifier. *)
Definition db_wf (d : Database) : Prop :=
  0 < next_id d /\ forall i, is_Some (table d !! i) -> 0 < i < next_id d.

(** A benign table on which a call that only reads gives its "nothing
    there" answer: the table without the requested row for [Get], the
    empty table for [List]. *)
Definition benign (c : Call) (d : Database) : Database :=
  match c with
  | Get polygon_id => mk_Database (delete polygon_id (table d)) (next_id d)
  | List => empty_db
  | _ => d
  end.

Definition reads_only (c : Call) : bool :=
  match c with
  | Get _ | List => true
  | _ => false
  end.

(** Creating the polygons of [reqs] one after the other, each at its own
    clock reading, while the storage layer works. *)
Fixpoint create_all (reqs : list (PolygonCreate.t * datetime)) (d : Database)
    : Database :=
  match reqs with
  | [] => d
  | (polygon_data, now) :: rest =>
      create_all rest (create_polygon polygon_data (healthy now) d).2
  end.

(** The object [create_polygon] builds from the request. *)
Definition new_polygon (polygon_data : PolygonCreate.t) (now : datetime) : Polygon.t :=
  Polygon.mk None (PolygonCreate.name polygon_data)
             (PolygonCreate.coordinates polygon_data)
             (PolygonCreate.properties polygon_data) now None.

(** The object [update_polygon] holds when it commits. *)
Definition updated_polygon (polygon_data : PolygonUpdate.t) (now : datetime)
    (p : Polygon.t) : Polygon.t :=
  Polygon.mk (Polygon.id p)
    (match PolygonUpdate.name polygon_data with Some v => v | None => Polygon.name p end)
    (match PolygonUpdate.coordinates polygon_data with
     | Some v => v | None => Polygon.coordinates p end)
    (match PolygonUpdate.properties polygon_data with
     | Some v => v | None => Polygon.properties p end)
    (Polygon.created_at p)
    (Some now).

(** Names for the two steps of [list_polygons] that run once per row. *)
Definition load (ir : Z * Row.t) : Sess ref := alloc Persistent (of_row ir.1 ir.2).
Definition respond (polygon : ref) : Sess PolygonResponse.t :=
  p ← deref polygon; mret (PolygonResponse.from_polygon p).
Definition loaded (ir : Z * Row.t) : ObjState * Polygon.t :=
  (Persistent, of_row ir.1 ir.2).

(** The response built from a stored row. *)
Definition response_of (ir : Z * Row.t) : PolygonResponse.t :=
  PolygonResponse.from_polygon (of_row ir.1 ir.2).

(** The field constraints of the schemas, as they hold for every stored
    row. *)
Definition row_ok (r : Row.t) : Prop :=
  (1 <= String.length (Row.name r) <= 255)%nat.

(** ** Sample data *)

Definition sample_coords : Coordinates :=
  [[[0%float; 0%float]; [1%float; 0%float]; [1%float; 1%float]; [0%float; 0%float]]].
Definition t0 : datetime := mk_datetime 2024 5 17 9 30 0 123456.
Definition t1 : datetime := mk_datetime 2024 5 17 9 31 0 0.
Definition req0 : PolygonCreate.t :=
  PolygonCreate.mk "Test Area" sample_coords (<["color" := JStr "blue"]> ∅).
Definition req_a : PolygonCreate.t := PolygonCreate.mk "A" sample_coords ∅.
Definition req_blank : PolygonCreate.t := PolygonCreate.mk "   " sample_coords ∅.
Definition row_a : Row.t := Row.mk "A" sample_coords ∅ t0 None.

(** A request and an update without a single ring. *)
Definition req_no_ring : PolygonCreate.t := PolygonCreate.mk "A" [] ∅.
Definition update_no_ring : PolygonUpdate.t := PolygonUpdate.mk None (Some []) None.

(** The table after one polygon was created at [t0]. *)
Definition db_a : Database := (invoke (Create req_a) (healthy t0) empty_db).2.

(** ** Vocabulary for strings *)

(** Every character of [s] is whitespace (true of the empty string). *)
Fixpoint all_isspace (s : string) : bool :=
  match s with
  | EmptyString => true
  | String c s' => isspace c && all_isspace s'
  end.

Definition starts_with_space (s : string) : bool :=
  match s with
  | EmptyString => false
  | String c _ => isspace c
  end.

Fixpoint ends_with_space (s : string) : bool :=
  match s with
  | EmptyString => false
  | String c EmptyString => isspace c
  | String _ s' => ends_with_space s'
  end.

(** The date part of an ISO timestamp, [YYYY-MM-DD]. *)
Definition isodate (d : datetime) : string :=
  zfill 4 (year d) +:+ "-" +:+ zfill 2 (month d) +:+ "-" +:+ zfill 2 (day d).

(** The timestamps of a row are datetimes Python can construct. *)
Definition row_dates_valid (r : Row.t) : Prop :=
  datetime_valid (Row.created_at r)
  /\ match Row.updated_at r with
     | Some u => datetime_valid u
     | None => True
     end.

(** ** [app/map_app.py]: the handlers of [MapApp] *)

(** The handlers are modelled on the state they read and write: the
    attributes of the [MapApp] object, the table behind the service, and
    the calls they make to the user interface ([ui.notify],
    [ui.run_javascript]), recorded in order. The page layout and the
    JavaScript of the map widget are outside this model. *)
Module MapApp.

Inductive NotifyType : Type := TInfo | TWarning | TPositive | TNegative.

(** Exceptions a handler can meet. *)
Inductive ui_exn : Type :=
| ValidationError               (* raised by the constructor of a schema *)
| JSONDecodeError               (* raised by [json.loads] on a malformed text *)
| OtherError                    (* any other exception, such as the plain
                                   [ValueError] or the [RecursionError] of
                                   [json.loads] *)
| ServiceError (e : exn).       (* anything a service method would raise *)

(** What a call of [json.loads] does: it returns a value, [JNull] being
    Python's [None], or it raises. *)
Inductive loads_result : Type :=
| Loaded (value : json)
| LoadsRaises (e : ui_exn).

(** A decoded value as the attribute [current_drawing_data] holds it: the
    attribute is [None] when the value is. *)
Definition as_attribute (value : json) : option json :=
  match value with
  | JNull => None
  | _ => Some value
  end.

(** The texts given to [ui.notify]. *)
Inductive Message : Type :=
| MsgDrawingEnabled     (* Drawing enabled. Click the polygon tool to start drawing. *)
| MsgDrawingCleared     (* Drawing cleared. *)
| MsgSaveCancelled      (* Save cancelled. *)
| MsgEnterName          (* Please enter a name for the polygon. *)
| MsgNoPolygon          (* No polygon to save. Please draw a polygon first. *)
| MsgSaved (name : string)          (* Polygon <name> saved successfully! *)
| MsgSaveFailed         (* Failed to save polygon. Please try again. *)
| MsgSaveError (e : ui_exn)         (* Error saving polygon: <e> *)
| MsgDeleted (polygon_name : string)    (* Polygon <polygon_name> deleted. *)
| MsgDeleteFailed       (* Failed to delete polygon. *)
| MsgPolygonDrawn       (* Polygon drawn! Enter a name to save it. *)
| MsgDataError.         (* Error processing polygon data. *)

(** The calls into the page's JavaScript; [LoadPolygons] carries the value
    of which the handler sends the JSON text. *)
Inductive JsCall : Type :=
| ToggleDrawing (enable : bool)
| ClearDrawing
| LoadPolygons (polygons : list (Coordinates * string)).

Inductive Effect : Type :=
| Notify (m : Message) (type : NotifyType)
| RunJavascript (js : JsCall).

(** What the sidebar column holds: the label of the empty state, or one
    card per polygon with its name, its creation label and a delete button
    bound to [p_id] and [p_name]. *)
Inductive Widget : Type :=
| EmptyLabel
| PolygonCard (name : string) (created : string) (p_id : Z) (p_name : string).

(** The attributes of a [MapApp]. An element of the page that is not [None]
    is modelled by what the handlers read or write of it: the children of
    the list container, the [visible] flag of the save card, the [value] of
    the hidden input. The drawing is whatever [json.loads] returned. *)
Record t : Type := mk {
  map_element : option unit;
  polygon_list_container : option (list Widget);
  current_drawing_data : option json;
  save_card : option bool;
  polygon_data_input : option string
}.

(** [MapApp.__init__]. *)
Definition init : t := mk None None None None None.

Record World : Type := mk_World {
  app : t;
  database : Database;
  effects : list Effect
}.

Inductive UiOutcome (A : Type) : Type :=
| UiReturn (a : A)
| UiRaise (e : ui_exn).
Arguments UiReturn {A} a.
Arguments UiRaise {A} e.

Definition UI (A : Type) : Type := World -> UiOutcome A * World.

Definition ui {A : Type} (f : World -> UiOutcome A * World) : UI A := f.

#[global] Instance UI_ret : MRet UI := fun A a w => (UiReturn a, w).
#[global] Instance UI_bind : MBind UI :=
  fun A B f m w =>
    match m w with
    | (UiReturn a, w') => f a w'
    | (UiRaise e, w') => (UiRaise e, w')
    end.

Definition ui_raise {A : Type} (e : ui_exn) : UI A := ui (fun w => (UiRaise e, w)).

(** [try: body except Exception as e: handler]. *)
Definition ui_try {A : Type} (body : UI A) (handler : ui_exn -> UI A) : UI A :=
  ui (fun w =>
    match body w with
    | (UiReturn a, w') => (UiReturn a, w')
    | (UiRaise e, w') => handler e w'
    end).

(** A call of a service method, in the circumstances [env]. *)
Definition call_service {A : Type} (m : Service A) (env : Env) : UI A :=
  ui (fun w =>
    match m env (database w) with
    | (Return a, d) => (UiReturn a, mk_World (app w) d (effects w))
    | (Raise e, d) => (UiRaise (ServiceError e), mk_World (app w) d (effects w))
    end).

Definition notify (m : Message) (type : NotifyType) : UI unit :=
  ui (fun w => (UiReturn tt, mk_World (app w) (database w) (effects w ++ [Notify m type]))).

Definition run_javascript (js : JsCall) : UI unit :=
  ui (fun w => (UiReturn tt, mk_World (app w) (database w) (effects w ++ [RunJavascript js]))).

Definition get_self : UI t := ui (fun w => (UiReturn (app w), w)).

Definition set_self (f : t -> t) : UI unit :=
  ui (fun w => (UiReturn tt, mk_World (f (app w)) (database w) (effects w))).

Definition set_polygon_list_container (v : option (list Widget)) (self : t) : t :=
  mk (map_element self) v (current_drawing_data self) (save_card self)
     (polygon_data_input self).
Definition set_current_drawing_data (v : option json) (self : t) : t :=
  mk (map_element self) (polygon_list_container self) v (save_card self)
     (polygon_data_input self).
Definition set_save_card (v : option bool) (self : t) : t :=
  mk (map_element self) (polygon_list_container self) (current_drawing_data self) v
     (polygon_data_input self).
Definition set_polygon_data_input (v : option string) (self : t) : t :=
  mk (map_element self) (polygon_list_container self) (current_drawing_data self)
     (save_card self) v.

(** [if self.save_card is not None: self.save_card.visible = v]. *)
Definition set_save_card_visible (v : bool) (self : t) : t :=
  match save_card self with
  | Some _ => set_save_card (Some v) self
  | None => self
  end.

(** The truth value of a string: false for the empty one. *)
Definition str_bool (s : string) : bool :=
  match s with
  | EmptyString => false
  | String _ _ => true
  end.

(** The card [_refresh_polygon_list] builds for one polygon. *)
Definition card (polygon : PolygonResponse.t) : Widget :=
  PolygonCard (PolygonResponse.name polygon)
              ("Created: " +:+ substring 0 10 (PolygonResponse.created_at polygon))
              (PolygonResponse.id polygon)
              (PolygonResponse.name polygon).

Definition _enable_drawing : UI unit :=
  run_javascript (ToggleDrawing true);;
  notify MsgDrawingEnabled TInfo.

Definition _clear_current_drawing : UI unit :=
  run_javascript ClearDrawing;;
  set_self (set_current_drawing_data None);;
  notify MsgDrawingCleared TInfo.

Definition _cancel_save : UI unit :=
  set_self (set_current_drawing_data None);;
  set_self (set_save_card_visible false);;
  notify MsgSaveCancelled TInfo.

Definition _refresh_polygon_list (env : Env) : UI unit :=
  self ← get_self;
  match polygon_list_container self with
  | None => mret tt
  | Some _ =>
      set_self (set_polygon_list_container (Some []));;
      polygon_list ← call_service list_polygons env;
      if PolygonListResponse.total polygon_list =? 0
      then set_self (set_polygon_list_container (Some [EmptyLabel]))
      else set_self (set_polygon_list_container
                       (Some (map card (PolygonListResponse.polygons polygon_list))))
  end.

Definition _load_all_polygons_to_map (env : Env) : UI unit :=
  polygon_list ← call_service list_polygons env;
  run_javascript
    (LoadPolygons (map (fun p => (PolygonResponse.coordinates p, PolygonResponse.name p))
                       (PolygonListResponse.polygons polygon_list))).

(** The handlers below run the executed path of the source: in
    [_delete_polygon] the confirmation dialog is defined and never
    called. *)
Definition _delete_polygon (polygon_id : Z) (polygon_name : string)
    (env env_refresh env_load : Env) : UI unit :=
  deleted ← call_service (delete_polygon polygon_id) env;
  if deleted : bool
  then notify (MsgDeleted polygon_name) TPositive;;
       _refresh_polygon_list env_refresh;;
       _load_all_polygons_to_map env_load
  else notify MsgDeleteFailed TNegative.

Section Validation.

(** The two library functions the handlers rely on and this development
    does not look into: the validation of [List[List[List[float]]]] that
    [PolygonCreate] applies to the drawing, where [None] stands for the
    validation error, and [json.loads]. *)
Variable coordinates_of : json -> option Coordinates.
Variable json_loads : string -> loads_result.

(** [PolygonCreate(name=..., coordinates=..., properties=...)] on a value
    that is yet to be validated as coordinates. *)
Definition PolygonCreate_call (name : string) (coordinates : json)
    (properties : Properties) : UI PolygonCreate.t :=
  match coordinates_of coordinates with
  | None => ui_raise ValidationError
  | Some c =>
      match PolygonCreate.init name c (Some properties) with
      | None => ui_raise ValidationError
      | Some polygon_create => mret polygon_create
      end
  end.

Definition _save_polygon (name : string) (env env_refresh env_load : Env) : UI unit :=
  if negb (str_bool name) || negb (str_bool (strip name))
  then notify MsgEnterName TWarning
  else
    self ← get_self;
    match current_drawing_data self with
    | None => notify MsgNoPolygon TWarning
    | Some drawing =>
        ui_try
          (polygon_create ← PolygonCreate_call (strip name) drawing
                              (<["color" := JStr "#3388ff"]> ∅);
           result ← call_service (create_polygon polygon_create) env;
           match result with
           | Some _ =>
               notify (MsgSaved name) TPositive;;
               set_self (set_current_drawing_data None);;
               set_self (set_save_card_visible false);;
               _refresh_polygon_list env_refresh;;
               _load_all_polygons_to_map env_load
           | None => notify MsgSaveFailed TNegative
           end)
          (fun e => notify (MsgSaveError e) TNegative)
    end.

(** [_on_polygon_data_received(e)], on the text [value] of the event; only
    [json.JSONDecodeError] is caught, any other exception leaves the
    handler. *)
Definition _on_polygon_data_received (value : string) : UI unit :=
  ui (fun w =>
    match
      (if str_bool value
       then
         match json_loads value with
         | LoadsRaises e => ui_raise e
         | Loaded coordinates =>
             set_self (set_current_drawing_data (as_attribute coordinates));;
             set_self (set_save_card_visible true);;
             notify MsgPolygonDrawn TPositive;;
             set_self (fun self =>
                         match polygon_data_input self with
                         | Some _ => set_polygon_data_input (Some EmptyString) self
                         | None => self
                         end)
         end
       else mret tt) w
    with
    | (UiRaise JSONDecodeError, w') => notify MsgDataError TNegative w'
    | r => r
    end).

End Validation.

End MapApp.

(** ** Vocabulary for the handlers *)

(** What [list_polygons] returns in the circumstances [env]. *)
Definition listing (env : Env) (d : Database) : PolygonListResponse.t :=
  match (list_polygons env d).1 with
  | Return l => l
  | Raise _ => PolygonListResponse.mk [] 0
  end.

(** The children [_refresh_polygon_list] gives the sidebar for a listing. *)
Definition sidebar_content (polygon_list : PolygonListResponse.t) : list MapApp.Widget :=
  if PolygonListResponse.total polygon_list =? 0
  then [MapApp.EmptyLabel]
  else map MapApp.card (PolygonListResponse.polygons polygon_list).

(** The argument [_load_all_polygons_to_map] gives [window.loadPolygons]. *)
Definition map_payload (polygon_list : PolygonListResponse.t) : MapApp.JsCall :=
  MapApp.LoadPolygons
    (map (fun p => (PolygonResponse.coordinates p, PolygonResponse.name p))
         (PolygonListResponse.polygons polygon_list)).

(** The card of a stored row: its name, the date of its [created_at], and
    a delete button bound to its id and name. *)
Definition row_card (ir : Z * Row.t) : MapApp.Widget :=
  MapApp.PolygonCard (Row.name ir.2)
                     ("Created: " +:+ isodate (Row.created_at ir.2))
                     ir.1
                     (Row.name ir.2).

(** The id a widget's delete button is bound to, if it has one. *)
Definition widget_id (w : MapApp.Widget) : option Z :=
  match w with
  | MapApp.EmptyLabel => None
  | MapApp.PolygonCard _ _ p_id _ => Some p_id
  end.

(** The properties [_save_polygon] gives every polygon. *)
Definition default_style : Properties := <["color" := JStr "#3388ff"]> ∅.

(** A validation that accepts lists of rings of floats as they are, for
    the sample runs. *)
Definition sample_coordinates_of (j : json) : option Coordinates :=
  match j with
  | JList _ => Some sample_coords
  | _ => None
  end.

Definition sample_world : MapApp.World :=
  MapApp.mk_World (MapApp.mk None (Some []) (Some (JList [])) (Some true) (Some EmptyString))
                  db_a [].

(** The world after one more call to the user interface. *)
Definition add_effect (e : MapApp.Effect) (w : MapApp.World) : MapApp.World :=
  MapApp.mk_World (MapApp.app w) (MapApp.database w) (MapApp.effects w ++ [e]).

(** The world after [_refresh_polygon_list] and after
    [_load_all_polygons_to_map]. *)
Definition refreshed (env : Env) (w : MapApp.World) : MapApp.World :=
  MapApp.mk_World
    (match MapApp.polygon_list_container (MapApp.app w) with
     | None => MapApp.app w
     | Some _ =>
         MapApp.set_polygon_list_container
           (Some (sidebar_content (listing env (MapApp.database w)))) (MapApp.app w)
     end)
    (MapApp.database w) (MapApp.effects w).

Definition map_loaded (env : Env) (w : MapApp.World) : MapApp.World :=
  add_effect (MapApp.RunJavascript (map_payload (listing env (MapApp.database w)))) w.

(** The request [_save_polygon] builds from a name and validated
    coordinates. *)
Definition save_request (name : string) (c : Coordinates) : PolygonCreate.t :=
  PolygonCreate.mk (strip name) c default_style.

(** * Properties *)

(** ** Running the session primitives *)

Ltac unfold_monad :=
  unfold try_except, with_session, session_add, session_commit, session_refresh,
    session_get, session_delete, session_exec_all, update_timestamp, Polygon_init,
    setattr, deref, alloc, storage_call, raise, sess,
    mbind, mret, Sess_bind, Sess_ret, Service_ret in *.

Ltac case_faults env :=
  repeat match goal with
  | |- context [faults env ?op] =>
      let E := fresh "Hfault" in destruct (faults env op) eqn:E; simpl
  end.

Lemma of_row_to_row (i : Z) (p : Polygon.t) :
  of_row i (to_row p) = Polygon.set_id (Some i) p.
Proof. reflexivity. Qed.

Lemma to_row_of_row (i : Z) (r : Row.t) : to_row (of_row i r) = r.
Proof. by destruct r. Qed.

Lemma load_all_run (rows : list (Z * Row.t)) (env : Env) (s : Session) :
  mapM load rows env s =
  (Return (seq (length (objects s)) (length rows)),
   mk_Session (db s) (objects s ++ map loaded rows)).
Proof.
  revert s. induction rows as [|ir rows IH]; intros s; simpl.
  - unfold mret, Sess_ret. rewrite app_nil_r. by destruct s.
  - unfold mbind, Sess_bind at 1. unfold load at 1, alloc at 1.
    unfold mbind, Sess_bind at 1. rewrite IH. simpl.
    unfold mret, Sess_ret. rewrite length_app, Nat.add_1_r. simpl.
    by rewrite <- app_assoc.
Qed.

Lemma respond_all_run (rows : list (Z * Row.t)) (env : Env)
    (d : Database) (pre post : list (ObjState * Polygon.t)) :
  mapM respond (seq (length pre) (length rows)) env
       (mk_Session d (pre ++ map loaded rows ++ post)) =
  (Return (map response_of rows), mk_Session d (pre ++ map loaded rows ++ post)).
Proof.
  revert pre. induction rows as [|ir rows IH]; intros pre; simpl; [done|].
  unfold mbind, Sess_bind at 1. unfold respond at 1.
  unfold mbind, Sess_bind at 1. unfold deref at 1. simpl.
  rewrite lookup_app_r by lia. rewrite Nat.sub_diag. simpl.
  unfold mret at 1, Sess_ret at 1.
  unfold mbind, Sess_bind at 1.
  specialize (IH (pre ++ [loaded ir])).
  rewrite length_app, Nat.add_1_r in IH. simpl in IH.
  rewrite <- !app_assoc in IH. simpl in IH. rewrite IH. done.
Qed.

Lemma session_exec_all_run (env : Env) (s : Session) :
  session_exec_all env s =
  if faults env OpExec then (Raise (StorageError OpExec OperationalError), s)
  else
    let rows := select_order_by_created_at_desc (db s) in
    (Return (seq (length (objects s)) (length rows)),
     mk_Session (db s) (objects s ++ map loaded rows)).
Proof.
  unfold session_exec_all, storage_call, sess, mbind, Sess_bind.
  destruct (faults env OpExec); [done|].
  apply (load_all_run (select_order_by_created_at_desc (db s)) env s).
Qed.

(** ** What the [with] block of each method computes *)

Lemma create_block_run (polygon_data : PolygonCreate.t) (env : Env) (d : Database) :
  with_session (create_polygon_body polygon_data) env d =
  if faults env OpOpen then (Raise (StorageError OpOpen OperationalError), d)
  else if faults env OpAdd then (Raise (StorageError OpAdd OperationalError), d)
  else if faults env OpCommit then (Raise (StorageError OpCommit OperationalError), d)
  else
    match table d !! next_id d with
    | Some _ => (Raise (StorageError OpCommit IntegrityError), d)
    | None =>
        let p := new_polygon polygon_data (utcnow env) in
        let d' := mk_Database (<[next_id d := to_row p]> (table d)) (next_id d + 1) in
        if faults env OpRefresh
        then (Raise (StorageError OpRefresh OperationalError), d')
        else (Return (Some (PolygonResponse.from_polygon
                              (Polygon.set_id (Some (next_id d)) p))), d')
    end.
Proof.
  unfold create_polygon_body. unfold_monad. simpl.
  case_faults env; try done.
  - destruct (table d !! next_id d); simpl; done.
  - destruct (table d !! next_id d); simpl; [done|].
    rewrite lookup_insert_eq. done.
Qed.

Lemma get_block_run (polygon_id : Z) (env : Env) (d : Database) :
  with_session (get_polygon_body polygon_id) env d =
  if faults env OpOpen then (Raise (StorageError OpOpen OperationalError), d)
  else if faults env OpGet then (Raise (StorageError OpGet OperationalError), d)
  else (Return (response_of <$> ((polygon_id,.) <$> table d !! polygon_id)), d).
Proof.
  unfold get_polygon_body. unfold_monad. simpl.
  case_faults env; try done.
  destruct (table d !! polygon_id); simpl; done.
Qed.

Lemma list_block_run (env : Env) (d : Database) :
  with_session list_polygons_body env d =
  if faults env OpOpen then (Raise (StorageError OpOpen OperationalError), d)
  else if faults env OpExec then (Raise (StorageError OpExec OperationalError), d)
  else
    let responses := map response_of (select_order_by_created_at_desc d) in
    (Return (PolygonListResponse.mk responses (Z.of_nat (length responses))), d).
Proof.
  unfold with_session. destruct (faults env OpOpen); [done|].
  unfold list_polygons_body.
  unfold mbind at 1, Sess_bind at 1. rewrite session_exec_all_run.
  destruct (faults env OpExec); [done|]. simpl.
  unfold mbind at 1, Sess_bind at 1.
  pose proof (respond_all_run (select_order_by_created_at_desc d) env d [] []) as H.
  simpl in H. rewrite app_nil_r in H. unfold respond in H. rewrite H. done.
Qed.

Lemma update_block_run (polygon_id : Z) (polygon_data : PolygonUpdate.t)
    (env : Env) (d : Database) :
  with_session (update_polygon_body polygon_id polygon_data) env d =
  if faults env OpOpen then (Raise (StorageError OpOpen OperationalError), d)
  else if faults env OpGet then (Raise (StorageError OpGet OperationalError), d)
  else
    match table d !! polygon_id with
    | None => (Return None, d)
    | Some row =>
        if faults env OpAdd then (Raise (StorageError OpAdd OperationalError), d)
        else if faults env OpCommit
        then (Raise (StorageError OpCommit OperationalError), d)
        else
          let p := updated_polygon polygon_data (utcnow env) (of_row polygon_id row) in
          let d' := mk_Database (<[polygon_id := to_row p]> (table d)) (next_id d) in
          if faults env OpRefresh
          then (Raise (StorageError OpRefresh OperationalError), d')
          else (Return (Some (PolygonResponse.from_polygon p)), d')
    end.
Proof.
  unfold update_polygon_body. unfold_monad. simpl.
  case_faults env; try done;
    destruct (table d !! polygon_id) eqn:Hrow; simpl; try done;
    destruct polygon_data as [[n|] [c|] [pr|]]; simpl;
    case_faults env; try done;
    rewrite Hrow; simpl; try done;
    rewrite lookup_insert_eq; done.
Qed.

Lemma delete_block_run (polygon_id : Z) (env : Env) (d : Database) :
  with_session (delete_polygon_body polygon_id) env d =
  if faults env OpOpen then (Raise (StorageError OpOpen OperationalError), d)
  else if faults env OpGet then (Raise (StorageError OpGet OperationalError), d)
  else
    match table d !! polygon_id with
    | None => (Return false, d)
    | Some _ =>
        if faults env OpDelete
        then (Raise (StorageError OpDelete OperationalError), d)
        else if faults env OpCommit
        then (Raise (StorageError OpCommit OperationalError), d)
        else (Return true, mk_Database (delete polygon_id (table d)) (next_id d))
    end.
Proof.
  unfold delete_polygon_body. unfold_monad. simpl.
  case_faults env; try done;
    destruct (table d !! polygon_id) eqn:Hrow; simpl; try done;
    case_faults env; try done.
  rewrite Hrow. done.
Qed.

(** ** What each method returns when the storage layer works *)

Lemma create_polygon_healthy (polygon_data : PolygonCreate.t) (now : datetime)
    (d : Database) :
  table d !! next_id d = None ->
  create_polygon polygon_data (healthy now) d =
  (Return (Some (PolygonResponse.from_polygon
                   (Polygon.set_id (Some (next_id d)) (new_polygon polygon_data now)))),
   mk_Database (<[next_id d := to_row (new_polygon polygon_data now)]> (table d))
               (next_id d + 1)).
Proof.
  intros Hfresh. unfold create_polygon, try_except.
  rewrite create_block_run. simpl. rewrite Hfresh. done.
Qed.

Lemma get_polygon_healthy (polygon_id : Z) (now : datetime) (d : Database) :
  get_polygon polygon_id (healthy now) d =
  (Return (response_of <$> ((polygon_id,.) <$> table d !! polygon_id)), d).
Proof. unfold get_polygon, try_except. rewrite get_block_run. done. Qed.

Lemma list_polygons_healthy (now : datetime) (d : Database) :
  list_polygons (healthy now) d =
  (Return (PolygonListResponse.mk
             (map response_of (select_order_by_created_at_desc d))
             (Z.of_nat (length (map response_of (select_order_by_created_at_desc d))))),
   d).
Proof. unfold list_polygons, try_except. rewrite list_block_run. done. Qed.

Lemma update_polygon_healthy (polygon_id : Z) (polygon_data : PolygonUpdate.t)
    (now : datetime) (d : Database) :
  update_polygon polygon_id polygon_data (healthy now) d =
  match table d !! polygon_id with
  | None => (Return None, d)
  | Some row =>
      let p := updated_polygon polygon_data now (of_row polygon_id row) in
      (Return (Some (PolygonResponse.from_polygon p)),
       mk_Database (<[polygon_id := to_row p]> (table d)) (next_id d))
  end.
Proof.
  unfold update_polygon, try_except. rewrite update_block_run. simpl.
  destruct (table d !! polygon_id); done.
Qed.

Lemma delete_polygon_healthy (polygon_id : Z) (now : datetime) (d : Database) :
  delete_polygon polygon_id (healthy now) d =
  match table d !! polygon_id with
  | None => (Return false, d)
  | Some _ => (Return true, mk_Database (delete polygon_id (table d)) (next_id d))
  end.
Proof.
  unfold delete_polygon, try_except. rewrite delete_block_run. simpl.
  destruct (table d !! polygon_id); done.
Qed.

(** ** Calls: the [except] clause and the table a call leaves *)

Ltac unfold_call :=
  unfold invoke, guarded_block, service_map, create_polygon, get_polygon,
    list_polygons, update_polygon, delete_polygon, try_except,
    mret, Service_ret in *;
  rewrite ?create_block_run, ?get_block_run, ?list_block_run,
    ?update_block_run, ?delete_block_run in *.

Lemma invoke_guarded (c : Call) (env : Env) (d : Database) :
  invoke c env d =
  match guarded_block c env d with
  | (Return r, d') => (Return r, d')
  | (Raise _, d') => (Return (unsuccessful c), d')
  end.
Proof.
  destruct c; unfold invoke, guarded_block, service_map, create_polygon,
    get_polygon, list_polygons, update_polygon, delete_polygon, try_except,
    mret, Service_ret; simpl;
  match goal with |- context [with_session ?b env d] =>
    destruct (with_session b env d) as [[?|?] ?] end; done.
Qed.

(** The table after a call is the table before it, or differs from it by
    the one statement the call commits. *)
Lemma invoke_db (c : Call) (env : Env) (d : Database) :
  (invoke c env d).2 = d
  \/ (exists polygon_data, c = Create polygon_data
        /\ table d !! next_id d = None
        /\ (invoke c env d).2 =
           mk_Database (<[next_id d := to_row (new_polygon polygon_data (utcnow env))]>
                          (table d)) (next_id d + 1))
  \/ (exists polygon_id polygon_data row, c = Update polygon_id polygon_data
        /\ table d !! polygon_id = Some row
        /\ (invoke c env d).2 =
           mk_Database (<[polygon_id :=
                            to_row (updated_polygon polygon_data (utcnow env)
                                                    (of_row polygon_id row))]>
                          (table d)) (next_id d))
  \/ (exists polygon_id, c = Delete polygon_id
        /\ (invoke c env d).2 =
           mk_Database (delete polygon_id (table d)) (next_id d)).
Proof.
  destruct c as [polygon_data| polygon_id | | polygon_id polygon_data | polygon_id];
    unfold_call.
  - case_faults env; auto.
    + destruct (table d !! next_id d) eqn:Hfresh; simpl; auto.
      right; left. eauto.
    + destruct (table d !! next_id d) eqn:Hfresh; simpl; auto.
      right; left. eauto.
  - case_faults env; auto.
  - case_faults env; auto.
  - case_faults env; auto;
      destruct (table d !! polygon_id) eqn:Hrow; simpl; auto;
      case_faults env; auto; right; right; left; eauto 10.
  - case_faults env; auto;
      destruct (table d !! polygon_id) eqn:Hrow; simpl; auto;
      case_faults env; auto; right; right; right; eauto.
Qed.

Lemma invoke_wf (c : Call) (env : Env) (d : Database) :
  db_wf d -> db_wf (invoke c env d).2.
Proof.
  intros [Hpos Hkeys].
  destruct (invoke_db c env d) as
    [-> | [(pd & _ & Hfresh & ->) | [(i & pd & row & _ & Hrow & ->) | (i & _ & ->)]]];
    [done | | |]; split; simpl; try lia; intros j [r Hj].
  - destruct (decide (j = next_id d)) as [->|Hne]; [lia|].
    rewrite lookup_insert_ne in Hj by done.
    specialize (Hkeys j (ex_intro _ r Hj)). lia.
  - destruct (decide (j = i)) as [->|Hne]; [by eauto|].
    rewrite lookup_insert_ne in Hj by done. by eauto.
  - destruct (decide (j = i)) as [->|Hne].
    + by rewrite lookup_delete_eq in Hj.
    + rewrite lookup_delete_ne in Hj by done. by eauto.
Qed.

Lemma reachable_wf (d : Database) : reachable d -> db_wf d.
Proof.
  induction 1 as [|c env d _ IH _].
  - split; [done|]. intros i [r Hi]. simpl in Hi. by rewrite lookup_empty in Hi.
  - by apply invoke_wf.
Qed.

Lemma wf_next_id_fresh (d : Database) : db_wf d -> table d !! next_id d = None.
Proof.
  intros [_ Hkeys]. destruct (table d !! next_id d) eqn:E; [|done].
  specialize (Hkeys (next_id d) (ex_intro _ _ E)). lia.
Qed.

#[local] Arguments Nat.leb : simpl never.

Lemma create_valid_row_ok (polygon_data : PolygonCreate.t) (now : datetime) :
  PolygonCreate.validate polygon_data = true ->
  row_ok (to_row (new_polygon polygon_data now)).
Proof.
  unfold PolygonCreate.validate, row_ok. simpl.
  rewrite !andb_true_iff, !Nat.leb_le. intros [H1 H2]. lia.
Qed.

Lemma update_valid_row_ok (polygon_data : PolygonUpdate.t) (now : datetime)
    (i : Z) (row : Row.t) :
  PolygonUpdate.validate polygon_data = true ->
  row_ok row ->
  row_ok (to_row (updated_polygon polygon_data now (of_row i row))).
Proof.
  unfold PolygonUpdate.validate, row_ok. simpl.
  intros Hn Hname.
  destruct polygon_data as [[n|] c pr]; simpl in *;
    rewrite ?andb_true_iff, ?Nat.leb_le in *; lia.
Qed.

Lemma reachable_rows_ok (d : Database) :
  reachable d -> forall i row, table d !! i = Some row -> row_ok row.
Proof.
  induction 1 as [|c env d Hreach IH Hvalid]; intros j r Hj.
  - simpl in Hj. by rewrite lookup_empty in Hj.
  - destruct (invoke_db c env d) as
      [Heq | [(pd & -> & Hfresh & Heq) | [(i & pd & row & -> & Hrow & Heq) | (i & _ & Heq)]]];
      rewrite Heq in Hj; simpl in Hj.
    + by eauto.
    + destruct (decide (j = next_id d)) as [->|Hne].
      * rewrite lookup_insert_eq in Hj. inversion Hj; subst.
        by apply create_valid_row_ok.
      * rewrite lookup_insert_ne in Hj by done. by eauto.
    + destruct (decide (j = i)) as [->|Hne].
      * rewrite lookup_insert_eq in Hj. inversion Hj; subst.
        apply update_valid_row_ok; [done | by eauto].
      * rewrite lookup_insert_ne in Hj by done. by eauto.
    + destruct (decide (j = i)) as [->|Hne].
      * by rewrite lookup_delete_eq in Hj.
      * rewrite lookup_delete_ne in Hj by done. by eauto.
Qed.

(** ** The order of [created_at] *)

Lemma lex_compare_antisym (a b : list Z) :
  lex_compare b a = CompOpp (lex_compare a b).
Proof.
  revert b. induction a as [|x a IH]; intros [|y b]; simpl; try done.
  rewrite (Z.compare_antisym x y). destruct (x ?= y); simpl; auto.
Qed.

Lemma lex_compare_le_trans (a b c : list Z) :
  lex_compare a b <> Gt -> lex_compare b c <> Gt -> lex_compare a c <> Gt.
Proof.
  revert b c. induction a as [|x a IH]; intros [|y b] [|z c]; simpl; try done.
  destruct (Z.compare_spec x y), (Z.compare_spec y z), (Z.compare_spec x z);
    subst; try lia; try done; eauto.
Qed.

#[global] Instance created_desc_total : Total created_desc.
Proof.
  intros a b. unfold created_desc, datetime_le, datetime_leb, datetime_compare.
  rewrite (lex_compare_antisym (datetime_key (Row.created_at a.2))).
  destruct (lex_compare _ _); simpl; auto.
Qed.

#[global] Instance created_desc_trans : Transitive created_desc.
Proof.
  intros a b c. unfold created_desc, datetime_le, datetime_leb, datetime_compare.
  intros Hab Hbc.
  pose proof (lex_compare_le_trans (datetime_key (Row.created_at c.2))
                (datetime_key (Row.created_at b.2))
                (datetime_key (Row.created_at a.2))) as Htr.
  destruct (lex_compare (datetime_key (Row.created_at c.2))
              (datetime_key (Row.created_at a.2))); try done.
  exfalso. apply Htr; [| |done].
  - by destruct (lex_compare (datetime_key (Row.created_at c.2)) _).
  - by destruct (lex_compare (datetime_key (Row.created_at b.2)) _).
Qed.

Lemma select_sorted (d : Database) :
  StronglySorted created_desc (select_order_by_created_at_desc d).
Proof. apply (StronglySorted_merge_sort created_desc). Qed.

Lemma select_permutation (d : Database) :
  select_order_by_created_at_desc d ≡ₚ map_to_list (table d).
Proof. apply merge_sort_Permutation. Qed.

Lemma select_length (d : Database) :
  length (select_order_by_created_at_desc d) = size (table d).
Proof. by rewrite select_permutation, length_map_to_list. Qed.

(** ** Creating several polygons *)

Lemma create_all_size (reqs : list (PolygonCreate.t * datetime)) (d : Database) :
  db_wf d ->
  db_wf (create_all reqs d)
  /\ size (table (create_all reqs d)) = (size (table d) + length reqs)%nat.
Proof.
  revert d. induction reqs as [|[polygon_data now] reqs IH]; intros d Hwf; simpl.
  - split; [done | lia].
  - pose proof (wf_next_id_fresh d Hwf) as Hfresh.
    pose proof (invoke_wf (Create polygon_data) (healthy now) d Hwf) as Hwf'.
    unfold invoke, service_map in Hwf'.
    rewrite (create_polygon_healthy polygon_data now d Hfresh) in *.
    simpl in *. destruct (IH _ Hwf') as [Hwf'' Hsize]. split; [done|].
    rewrite Hsize. simpl. rewrite map_size_insert_None by done. lia.
Qed.

Lemma empty_db_wf : db_wf empty_db.
Proof. apply reachable_wf, reachable_empty. Qed.

(** ** The definitions at work *)

Example isoformat_with_fraction : isoformat t0 = "2024-05-17T09:30:00.123456"%string.
Proof. reflexivity. Qed.

Example isoformat_whole_second : isoformat t1 = "2024-05-17T09:31:00"%string.
Proof. reflexivity. Qed.

Example strip_inner_space_kept : strip "  a b  " = "a b"%string.
Proof. reflexivity. Qed.

Example empty_name_rejected : PolygonCreate.init EmptyString sample_coords None = None.
Proof. reflexivity. Qed.

Example create_on_empty_table :
  (create_polygon req_a (healthy t0) empty_db).1
  = Return (Some (PolygonResponse.mk 1 "A" sample_coords ∅
                    "2024-05-17T09:30:00.123456" None)).
Proof. vm_compute. reflexivity. Qed.

Example newest_first :
  map PolygonResponse.id
      (match (list_polygons (healthy t1)
                (create_all [(req_a, t0); (req_blank, t1)] empty_db)).1 with
       | Return r => PolygonListResponse.polygons r
       | Raise _ => []
       end)
  = [2; 1].
Proof. vm_compute. reflexivity. Qed.

(** * The service contract *)

(** ** Storage errors *)

(** C1, as stated, fails: when [session.refresh] raises after
    [session.commit] succeeded, [create_polygon] returns [None] and the new
    row is in the table. *)
Lemma create_refresh_failure_leaves_row :
  (guarded_block (Create req_a) (mk_Env t0 (fault_at OpRefresh)) empty_db).1
    = Raise (StorageError OpRefresh OperationalError)
  /\ (invoke (Create req_a) (mk_Env t0 (fault_at OpRefresh)) empty_db).1
    = Return (RPolygon None)
  /\ table empty_db !! 1 = None
  /\ table (invoke (Create req_a) (mk_Env t0 (fault_at OpRefresh)) empty_db).2 !! 1
    = Some row_a
  /\ (invoke (Create req_a) (mk_Env t0 (fault_at OpRefresh)) empty_db).2 <> empty_db.
Proof.
  repeat split; try (vm_compute; reflexivity).
  intros H. apply (f_equal next_id) in H. vm_compute in H. discriminate.
Qed.

(** C1 (amended): whatever storage-layer error [e] leaves the [with] block
    of a service method, the method raises nothing and returns its
    "unsuccessful" value ([None] for create, get and update, [False] for
    delete, the empty list response for list); the table is unchanged,
    unless [e] was raised by the [session.refresh] that follows the commit
    of create or update. *)
Theorem storage_errors_isolated (c : Call) (env : Env) (d : Database) (e : exn)
    (Hraise : (guarded_block c env d).1 = Raise e) :
  (invoke c env d).1 = Return (unsuccessful c)
  /\ ((invoke c env d).2 = d
      \/ (refreshes c = true /\ e = StorageError OpRefresh OperationalError)).
Proof.
  rewrite invoke_guarded.
  destruct c as [polygon_data| polygon_id | | polygon_id polygon_data | polygon_id];
    unfold guarded_block, service_map in *;
    rewrite ?create_block_run, ?get_block_run, ?list_block_run,
      ?update_block_run, ?delete_block_run in *;
    revert Hraise;
    repeat first
      [ progress case_faults env
      | match goal with
        | |- context [table d !! ?k] => destruct (table d !! k) eqn:?; simpl
        end ];
    intros Hraise;
    first [ discriminate Hraise | injection Hraise as <-; simpl; auto ].
Qed.

Lemma storage_errors_isolated_witness :
  (guarded_block (Create req_a) (mk_Env t0 (fault_at OpCommit)) empty_db).1
    = Raise (StorageError OpCommit OperationalError)
  /\ (invoke (Create req_a) (mk_Env t0 (fault_at OpCommit)) empty_db).1
    = Return (unsuccessful (Create req_a))
  /\ ((invoke (Create req_a) (mk_Env t0 (fault_at OpCommit)) empty_db).2 = empty_db
      \/ (refreshes (Create req_a) = true
          /\ StorageError OpCommit OperationalError
             = StorageError OpRefresh OperationalError)).
Proof.
  split; [vm_compute; reflexivity|].
  apply (storage_errors_isolated (Create req_a) (mk_Env t0 (fault_at OpCommit))
           empty_db (StorageError OpCommit OperationalError)).
  vm_compute; reflexivity.
Defined.

(** ** Update *)

(** C2: while the storage layer works, [update_polygon] on a stored id
    rewrites that row only; every field supplied in the request takes the
    supplied value, every omitted field keeps its prior value, [created_at]
    and the id are unchanged and [updated_at] is the current time. In
    particular a request with only [name] leaves [coordinates] and
    [properties] as they were. *)
Theorem update_changes_only_supplied_fields
    (polygon_id : Z) (polygon_data : PolygonUpdate.t) (now : datetime)
    (d : Database) (row : Row.t)
    (Hrow : table d !! polygon_id = Some row) :
  exists (row' : Row.t) (d' : Database),
    update_polygon polygon_id polygon_data (healthy now) d
      = (Return (Some (response_of (polygon_id, row'))), d')
    /\ table d' !! polygon_id = Some row'
    /\ (forall j, j <> polygon_id -> table d' !! j = table d !! j)
    /\ Row.name row' = default (Row.name row) (PolygonUpdate.name polygon_data)
    /\ Row.coordinates row'
       = default (Row.coordinates row) (PolygonUpdate.coordinates polygon_data)
    /\ Row.properties row'
       = default (Row.properties row) (PolygonUpdate.properties polygon_data)
    /\ Row.created_at row' = Row.created_at row
    /\ Row.updated_at row' = Some now
    /\ PolygonResponse.id (response_of (polygon_id, row')) = polygon_id.
Proof.
  rewrite update_polygon_healthy, Hrow.
  exists (to_row (updated_polygon polygon_data now (of_row polygon_id row))).
  eexists. split; [reflexivity|]. simpl.
  split; [by rewrite lookup_insert_eq|].
  split; [by intros j Hj; rewrite lookup_insert_ne|].
  destruct polygon_data as [[n|] [c|] [pr|]]; simpl; done.
Qed.

Lemma update_changes_only_supplied_fields_witness :
  table db_a !! 1 = Some row_a
  /\ exists (row' : Row.t) (d' : Database),
    update_polygon 1 (PolygonUpdate.mk (Some "X"%string) None None) (healthy t1) db_a
      = (Return (Some (response_of (1, row'))), d')
    /\ table d' !! 1 = Some row'
    /\ (forall j, j <> 1 -> table d' !! j = table db_a !! j)
    /\ Row.name row' = "X"%string
    /\ Row.coordinates row' = Row.coordinates row_a
    /\ Row.properties row' = Row.properties row_a
    /\ Row.created_at row' = Row.created_at row_a
    /\ Row.updated_at row' = Some t1
    /\ PolygonResponse.id (response_of (1, row')) = 1.
Proof.
  split; [vm_compute; reflexivity|].
  apply (update_changes_only_supplied_fields 1
           (PolygonUpdate.mk (Some "X"%string) None None) t1 db_a row_a).
  vm_compute; reflexivity.
Defined.

(** C10: while the storage layer works, an update that supplies no field
    succeeds on a stored id: name, coordinates, properties and [created_at]
    stay as they were and [updated_at] becomes the current time. *)
Theorem empty_update_sets_timestamp
    (polygon_id : Z) (now : datetime) (d : Database) (row : Row.t)
    (Hrow : table d !! polygon_id = Some row) :
  exists (resp : PolygonResponse.t) (d' : Database),
    update_polygon polygon_id (PolygonUpdate.mk None None None) (healthy now) d
      = (Return (Some resp), d')
    /\ table d' !! polygon_id
       = Some (Row.mk (Row.name row) (Row.coordinates row) (Row.properties row)
                      (Row.created_at row) (Some now))
    /\ PolygonResponse.id resp = polygon_id
    /\ PolygonResponse.name resp = Row.name row
    /\ PolygonResponse.coordinates resp = Row.coordinates row
    /\ PolygonResponse.properties resp = Row.properties row
    /\ PolygonResponse.created_at resp = isoformat (Row.created_at row)
    /\ PolygonResponse.updated_at resp = Some (isoformat now).
Proof.
  rewrite update_polygon_healthy, Hrow.
  eexists _, _. split; [reflexivity|]. simpl.
  split; [by rewrite lookup_insert_eq|]. done.
Qed.

Lemma empty_update_sets_timestamp_witness :
  table db_a !! 1 = Some row_a
  /\ exists (resp : PolygonResponse.t) (d' : Database),
    update_polygon 1 (PolygonUpdate.mk None None None) (healthy t1) db_a
      = (Return (Some resp), d')
    /\ table d' !! 1
       = Some (Row.mk (Row.name row_a) (Row.coordinates row_a) (Row.properties row_a)
                      (Row.created_at row_a) (Some t1))
    /\ PolygonResponse.id resp = 1
    /\ PolygonResponse.name resp = Row.name row_a
    /\ PolygonResponse.coordinates resp = Row.coordinates row_a
    /\ PolygonResponse.properties resp = Row.properties row_a
    /\ PolygonResponse.created_at resp = isoformat (Row.created_at row_a)
    /\ PolygonResponse.updated_at resp = Some (isoformat t1).
Proof.
  split; [vm_compute; reflexivity|].
  apply (empty_update_sets_timestamp 1 t1 db_a row_a).
  vm_compute; reflexivity.
Defined.

(** ** Create and get *)

(** C3: while the storage layer works, creating a polygon from a request
    that passed validation (a name of 1 to 255 characters, which every
    request with a valid name and non-empty coordinates has) succeeds on
    every reachable table; the response carries a positive id that no
    stored row had, a [created_at], and no [updated_at]. *)
Theorem create_assigns_fresh_positive_id
    (polygon_data : PolygonCreate.t) (now : datetime) (d : Database)
    (Hreach : reachable d)
    (Hvalid : PolygonCreate.validate polygon_data = true) :
  exists (resp : PolygonResponse.t) (d' : Database),
    create_polygon polygon_data (healthy now) d = (Return (Some resp), d')
    /\ 0 < PolygonResponse.id resp
    /\ table d !! PolygonResponse.id resp = None
    /\ is_Some (table d' !! PolygonResponse.id resp)
    /\ PolygonResponse.created_at resp = isoformat now
    /\ PolygonResponse.updated_at resp = None.
Proof.
  pose proof (reachable_wf d Hreach) as Hwf.
  pose proof (wf_next_id_fresh d Hwf) as Hfresh.
  rewrite (create_polygon_healthy polygon_data now d Hfresh).
  eexists _, _. split; [reflexivity|]. simpl.
  destruct Hwf as [Hpos _].
  repeat split; try done. rewrite lookup_insert_eq. by eexists.
Qed.

Lemma create_assigns_fresh_positive_id_witness :
  reachable db_a
  /\ PolygonCreate.validate req0 = true
  /\ exists (resp : PolygonResponse.t) (d' : Database),
    create_polygon req0 (healthy t1) db_a = (Return (Some resp), d')
    /\ 0 < PolygonResponse.id resp
    /\ table db_a !! PolygonResponse.id resp = None
    /\ is_Some (table d' !! PolygonResponse.id resp)
    /\ PolygonResponse.created_at resp = isoformat t1
    /\ PolygonResponse.updated_at resp = None.
Proof.
  assert (Hreach : reachable db_a).
  { apply (reachable_step (Create req_a) (healthy t0) empty_db).
    - apply reachable_empty.
    - reflexivity. }
  split; [exact Hreach|]. split; [reflexivity|].
  apply (create_assigns_fresh_positive_id req0 t1 db_a Hreach). reflexivity.
Defined.

(** C7: while the storage layer works, [get_polygon] on the id a create
    just returned gives the very response create returned; that response
    has the name, coordinates and properties of the request, whatever
    JSON-compatible values the properties hold, and its [created_at] is the
    ISO string of the stored timestamp. *)
Theorem get_after_create_round_trip
    (polygon_data : PolygonCreate.t) (now later : datetime) (d : Database)
    (Hreach : reachable d)
    (Hvalid : PolygonCreate.validate polygon_data = true) :
  exists (resp : PolygonResponse.t) (row : Row.t) (d' : Database),
    create_polygon polygon_data (healthy now) d = (Return (Some resp), d')
    /\ get_polygon (PolygonResponse.id resp) (healthy later) d'
       = (Return (Some resp), d')
    /\ PolygonResponse.name resp = PolygonCreate.name polygon_data
    /\ PolygonResponse.coordinates resp = PolygonCreate.coordinates polygon_data
    /\ PolygonResponse.properties resp = PolygonCreate.properties polygon_data
    /\ table d' !! PolygonResponse.id resp = Some row
    /\ Row.created_at row = now
    /\ PolygonResponse.created_at resp = isoformat (Row.created_at row)
    /\ PolygonResponse.updated_at resp = None.
Proof.
  pose proof (wf_next_id_fresh d (reachable_wf d Hreach)) as Hfresh.
  rewrite (create_polygon_healthy polygon_data now d Hfresh).
  eexists _, _, _. split; [reflexivity|]. simpl.
  rewrite get_polygon_healthy. simpl. rewrite lookup_insert_eq. simpl.
  repeat split; done.
Qed.

Lemma get_after_create_round_trip_witness :
  reachable empty_db
  /\ PolygonCreate.validate req0 = true
  /\ exists (resp : PolygonResponse.t) (row : Row.t) (d' : Database),
    create_polygon req0 (healthy t0) empty_db = (Return (Some resp), d')
    /\ get_polygon (PolygonResponse.id resp) (healthy t1) d'
       = (Return (Some resp), d')
    /\ PolygonResponse.name resp = PolygonCreate.name req0
    /\ PolygonResponse.coordinates resp = PolygonCreate.coordinates req0
    /\ PolygonResponse.properties resp = PolygonCreate.properties req0
    /\ table d' !! PolygonResponse.id resp = Some row
    /\ Row.created_at row = t0
    /\ PolygonResponse.created_at resp = isoformat (Row.created_at row)
    /\ PolygonResponse.updated_at resp = None.
Proof.
  split; [apply reachable_empty|]. split; [reflexivity|].
  apply (get_after_create_round_trip req0 t0 t1 empty_db).
  - apply reachable_empty.
  - reflexivity.
Defined.

(** ** List *)

(** C4: while the storage layer works, [list_polygons] answers with one
    response per stored row, each stored row exactly once, rows of later
    [created_at] first, and [total] is the number of responses; after
    creating the polygons of [reqs] on the empty table there are
    [length reqs] of them, and on the empty table the answer is the empty
    list with total 0. *)
Theorem list_returns_all_newest_first
    (now : datetime) (d : Database) (reqs : list (PolygonCreate.t * datetime)) :
  (exists rows : list (Z * Row.t),
      list_polygons (healthy now) d
        = (Return (PolygonListResponse.mk (map response_of rows)
                                          (Z.of_nat (length (map response_of rows)))), d)
      /\ rows ≡ₚ map_to_list (table d)
      /\ StronglySorted created_desc rows
      /\ length (map response_of rows) = size (table d))
  /\ (exists resp : PolygonListResponse.t,
      (list_polygons (healthy now) (create_all reqs empty_db)).1 = Return resp
      /\ length (PolygonListResponse.polygons resp) = length reqs
      /\ PolygonListResponse.total resp = Z.of_nat (length reqs))
  /\ list_polygons (healthy now) empty_db
     = (Return (PolygonListResponse.mk [] 0), empty_db).
Proof.
  split; [|split].
  - exists (select_order_by_created_at_desc d).
    rewrite list_polygons_healthy.
    split; [done|]. split; [apply select_permutation|].
    split; [apply select_sorted|]. by rewrite length_map, select_length.
  - rewrite list_polygons_healthy. eexists. split; [reflexivity|]. simpl.
    destruct (create_all_size reqs empty_db empty_db_wf) as [_ Hsize].
    rewrite length_map, select_length, Hsize. simpl.
    rewrite map_size_empty. done.
  - rewrite list_polygons_healthy. reflexivity.
Qed.

(** ** Stored rows *)

(** C5, as stated, fails: a name of three spaces passes the validation of
    [PolygonCreate], and [create_polygon] stores it as it is, although it
    is empty after trimming. *)
Lemma whitespace_name_is_stored :
  PolygonCreate.init "   " sample_coords None = Some req_blank
  /\ reachable (invoke (Create req_blank) (healthy t0) empty_db).2
  /\ table (invoke (Create req_blank) (healthy t0) empty_db).2 !! 1
     = Some (Row.mk "   " sample_coords ∅ t0 None)
  /\ strip "   " = EmptyString.
Proof.
  split; [reflexivity|]. split; [|split; vm_compute; reflexivity].
  apply reachable_step; [apply reachable_empty | reflexivity].
Qed.

(** C5 (amended): in every table the service can reach through calls whose
    requests passed validation, the stored name is never empty and has at
    most 255 characters. *)
Theorem stored_name_nonempty_bounded (d : Database) (i : Z) (row : Row.t)
    (Hreach : reachable d) (Hrow : table d !! i = Some row) :
  Row.name row <> EmptyString
  /\ (1 <= String.length (Row.name row) <= 255)%nat.
Proof.
  pose proof (reachable_rows_ok d Hreach i row Hrow) as Hname.
  unfold row_ok in Hname.
  split; [|done]. intros Heq. rewrite Heq in Hname. simpl in Hname. lia.
Qed.

Lemma db_a_reachable : reachable db_a.
Proof.
  apply (reachable_step (Create req_a) (healthy t0) empty_db).
  - apply reachable_empty.
  - reflexivity.
Defined.

Lemma stored_name_nonempty_bounded_witness :
  reachable db_a /\ table db_a !! 1 = Some row_a
  /\ Row.name row_a <> EmptyString
  /\ (1 <= String.length (Row.name row_a) <= 255)%nat.
Proof.
  split; [exact db_a_reachable|]. split; [vm_compute; reflexivity|].
  apply (stored_name_nonempty_bounded db_a 1 row_a db_a_reachable).
  vm_compute; reflexivity.
Defined.

(** C8: the schemas declare [min_items=1] on [coordinates], and the
    service relies on them alone. The declaration checks nothing: a request
    without a single ring passes the construction of [PolygonCreate] and
    [create_polygon] stores it; an update whose coordinates are the empty
    list passes [PolygonUpdate] and replaces stored rings by none. In both
    tables, reachable through validated requests, the stored coordinates
    are empty, which [min_items=1] rules out. *)
Theorem empty_coordinates_are_stored :
  PolygonCreate.init "A" [] None = Some req_no_ring
  /\ PolygonCreate.min_items_declared (PolygonCreate.coordinates req_no_ring) = false
  /\ reachable (invoke (Create req_no_ring) (healthy t0) empty_db).2
  /\ table (invoke (Create req_no_ring) (healthy t0) empty_db).2 !! 1
     = Some (Row.mk "A" [] ∅ t0 None)
  /\ PolygonUpdate.init None (Some []) None = Some update_no_ring
  /\ reachable (invoke (Update 1 update_no_ring) (healthy t1) db_a).2
  /\ table db_a !! 1 = Some (Row.mk "A" sample_coords ∅ t0 None)
  /\ table (invoke (Update 1 update_no_ring) (healthy t1) db_a).2 !! 1
     = Some (Row.mk "A" [] ∅ t0 (Some t1)).
Proof.
  split; [reflexivity|]. split; [reflexivity|].
  split; [apply reachable_step; [apply reachable_empty | reflexivity]|].
  split; [vm_compute; reflexivity|].
  split; [reflexivity|].
  split; [apply reachable_step; [exact db_a_reachable | reflexivity]|].
  split; vm_compute; reflexivity.
Qed.

(** ** Delete and absent ids *)

(** C6: while the storage layer works, deleting a stored id returns [True]
    and removes the row, so that a later get of that id returns [None];
    on an id that is not stored, delete returns [False] and get and update
    return [None], none of them raising and none changing the table. A get
    of a stored id returns a response, so [None] is told apart from it. *)
Theorem delete_and_absent_ids
    (polygon_id : Z) (polygon_data : PolygonUpdate.t) (now later : datetime)
    (d : Database) :
  match table d !! polygon_id with
  | Some row =>
      exists d' : Database,
        delete_polygon polygon_id (healthy now) d = (Return true, d')
        /\ table d' !! polygon_id = None
        /\ get_polygon polygon_id (healthy later) d' = (Return None, d')
        /\ get_polygon polygon_id (healthy now) d
           = (Return (Some (response_of (polygon_id, row))), d)
  | None =>
      delete_polygon polygon_id (healthy now) d = (Return false, d)
      /\ get_polygon polygon_id (healthy now) d = (Return None, d)
      /\ update_polygon polygon_id polygon_data (healthy now) d = (Return None, d)
  end.
Proof.
  rewrite delete_polygon_healthy, update_polygon_healthy, !get_polygon_healthy.
  destruct (table d !! polygon_id) as [row|] eqn:Hrow; simpl.
  - eexists. split; [reflexivity|].
    rewrite get_polygon_healthy. simpl. rewrite lookup_delete_eq. done.
  - done.
Qed.

(** ** Failures that look like benign answers *)

(** C9: when a storage-layer error leaves the [with] block of get or list,
    the caller receives the value the same call returns, with the storage
    layer working, on a table that lacks the row (get) or is empty (list):
    [None], respectively the empty list response with total 0. *)
Theorem failure_looks_benign
    (c : Call) (env : Env) (d : Database) (e : exn) (now : datetime)
    (Hreads : reads_only c = true)
    (Hraise : (guarded_block c env d).1 = Raise e) :
  (invoke c env d).1 = (invoke c (healthy now) (benign c d)).1
  /\ (invoke c env d).1 = Return (unsuccessful c)
  /\ match c with
     | Get _ => unsuccessful c = RPolygon None
     | _ => unsuccessful c = RList (PolygonListResponse.mk [] 0)
     end.
Proof.
  assert (Hret : (invoke c env d).1 = Return (unsuccessful c)).
  { rewrite invoke_guarded.
    destruct (guarded_block c env d) as [[r|e'] d']; simpl in *;
      [discriminate | done]. }
  rewrite Hret.
  destruct c as [? | polygon_id | | ? ? | ?]; try discriminate Hreads; simpl.
  - unfold service_map. rewrite get_polygon_healthy. simpl.
    rewrite lookup_delete_eq. done.
  - unfold service_map. rewrite list_polygons_healthy. done.
Qed.

Lemma failure_looks_benign_witness :
  reads_only List = true
  /\ (guarded_block List (mk_Env t1 (fault_at OpExec)) db_a).1
     = Raise (StorageError OpExec OperationalError)
  /\ (invoke List (mk_Env t1 (fault_at OpExec)) db_a).1
     = (invoke List (healthy t1) (benign List db_a)).1
  /\ (invoke List (mk_Env t1 (fault_at OpExec)) db_a).1 = Return (unsuccessful List)
  /\ unsuccessful List = RList (PolygonListResponse.mk [] 0).
Proof.
  split; [reflexivity|]. split; [vm_compute; reflexivity|].
  apply (failure_looks_benign List (mk_Env t1 (fault_at OpExec)) db_a
           (StorageError OpExec OperationalError) t1).
  - reflexivity.
  - vm_compute; reflexivity.
Defined.

(** * Further properties of the service *)

Lemma exists_block_run (polygon_id : Z) (env : Env) (d : Database) :
  with_session (polygon_exists_body polygon_id) env d =
  if faults env OpOpen then (Raise (StorageError OpOpen OperationalError), d)
  else if faults env OpGet then (Raise (StorageError OpGet OperationalError), d)
  else (Return (bool_decide (is_Some (table d !! polygon_id))), d).
Proof.
  unfold polygon_exists_body. unfold_monad. simpl.
  case_faults env; try done.
  destruct (table d !! polygon_id) eqn:Hrow; simpl; done.
Qed.

(** Unfold a service method down to the case analysis on the faults of the
    environment and on the rows it looks up. *)
Ltac run_service env d :=
  unfold create_polygon, get_polygon, list_polygons, update_polygon,
    delete_polygon, polygon_exists, try_except, mret, Service_ret;
  rewrite ?create_block_run, ?get_block_run, ?list_block_run,
    ?update_block_run, ?delete_block_run, ?exists_block_run;
  repeat first
    [ progress case_faults env
    | match goal with
      | |- context [table d !! ?k] =>
          let E := fresh "Hlookup" in destruct (table d !! k) eqn:E; simpl
      end ].

(** ** [polygon_exists] *)

(** [polygon_exists] never raises and never changes the table. Its answer
    is [True] exactly when [get_polygon], called in the same circumstances,
    returns a polygon; it is never [True] for an id that is not stored, and
    while the storage layer works it tells whether the id is stored. *)
Theorem polygon_exists_agrees_with_get (polygon_id : Z) (env : Env) (d : Database) :
  exists b : bool,
    polygon_exists polygon_id env d = (Return b, d)
    /\ (b = true <-> exists r, get_polygon polygon_id env d = (Return (Some r), d))
    /\ (b = true -> is_Some (table d !! polygon_id))
    /\ polygon_exists polygon_id (healthy (utcnow env)) d
       = (Return (bool_decide (is_Some (table d !! polygon_id))), d).
Proof.
  unfold polygon_exists, get_polygon, try_except.
  rewrite !exists_block_run, get_block_run. simpl.
  destruct (faults env OpOpen); simpl;
    [exists false; repeat split; try done;
       first [intros [r Hr]; discriminate Hr | discriminate]|].
  destruct (faults env OpGet); simpl;
    [exists false; repeat split; try done;
       first [intros [r Hr]; discriminate Hr | discriminate]|].
  exists (bool_decide (is_Some (table d !! polygon_id))).
  split; [done|]. rewrite bool_decide_eq_true.
  destruct (table d !! polygon_id) as [row|]; simpl; repeat split; eauto.
  - intros [r Hr]; discriminate Hr.
  - intros [r Hr]; discriminate Hr.
Qed.

(** ** What a call leaves untouched *)

(** The reading methods never change the table, whatever the storage layer
    does. *)
Theorem reads_leave_table (polygon_id : Z) (env : Env) (d : Database) :
  (get_polygon polygon_id env d).2 = d
  /\ (list_polygons env d).2 = d
  /\ (polygon_exists polygon_id env d).2 = d.
Proof. repeat split; run_service env d; done. Qed.

(** Whatever the storage layer does, [create_polygon] leaves every stored
    row as it was, adds at most one row and never lowers the next
    identifier; this holds on every table, the empty one included. *)
Theorem create_keeps_existing_rows
    (polygon_data : PolygonCreate.t) (env : Env) (d : Database) :
  (forall (j : Z) (row : Row.t),
      table d !! j = Some row ->
      table (create_polygon polygon_data env d).2 !! j = Some row)
  /\ (size (table (create_polygon polygon_data env d).2) <= S (size (table d)))%nat
  /\ next_id d <= next_id (create_polygon polygon_data env d).2.
Proof.
  unfold create_polygon, try_except. rewrite create_block_run.
  case_faults env; try (repeat split; try done; lia);
    destruct (table d !! next_id d) eqn:Hfresh; simpl;
    try (repeat split; try done; lia).
  all: split; [|split; [rewrite map_size_insert_None by done; lia | lia]].
  all: intros j row Hrow; assert (j <> next_id d) by congruence.
  all: by rewrite lookup_insert_ne.
Qed.

Lemma create_keeps_existing_rows_witness :
  table (create_polygon req0 (mk_Env t1 (fault_at OpRefresh)) db_a).2 !! 1
    = Some row_a
  /\ (size (table (create_polygon req0 (healthy t0) empty_db).2)
      <= S (size (table empty_db)))%nat
  /\ next_id empty_db <= next_id (create_polygon req0 (healthy t0) empty_db).2.
Proof.
  split.
  - apply (create_keeps_existing_rows req0 (mk_Env t1 (fault_at OpRefresh)) db_a).
    vm_compute; reflexivity.
  - apply (create_keeps_existing_rows req0 (healthy t0) empty_db).
Defined.

Lemma delete_polygon_run (polygon_id : Z) (env : Env) (d : Database) :
  delete_polygon polygon_id env d =
  if faults env OpOpen || faults env OpGet then (Return false, d)
  else
    match table d !! polygon_id with
    | None => (Return false, d)
    | Some _ =>
        if faults env OpDelete || faults env OpCommit then (Return false, d)
        else (Return true, mk_Database (delete polygon_id (table d)) (next_id d))
    end.
Proof. run_service env d; done. Qed.

(** Whatever the storage layer does, [delete_polygon] returns a boolean;
    when it is [True] the row was stored and the table is the old one
    without that row, when it is [False] the table is exactly the old
    one. *)
Theorem delete_reports_removal (polygon_id : Z) (env : Env) (d : Database) :
  exists b : bool,
    delete_polygon polygon_id env d
      = (Return b,
         if b then mk_Database (delete polygon_id (table d)) (next_id d) else d)
    /\ (if b then is_Some (table d !! polygon_id) else True).
Proof.
  rewrite delete_polygon_run.
  case_faults env; try (by exists false);
    destruct (table d !! polygon_id) eqn:Hrow; simpl; try (by exists false);
    case_faults env; try (by exists false).
  exists true. split; [done | by eexists].
Qed.

(** Whatever the storage layer does, [update_polygon] neither adds nor
    removes a row, leaves the rows of all other ids as they were and keeps
    the next identifier. *)
Theorem update_keeps_ids_and_other_rows
    (polygon_id j : Z) (polygon_data : PolygonUpdate.t) (env : Env) (d : Database) :
  (is_Some (table (update_polygon polygon_id polygon_data env d).2 !! j)
     <-> is_Some (table d !! j))
  /\ (j <> polygon_id ->
      table (update_polygon polygon_id polygon_data env d).2 !! j = table d !! j)
  /\ size (table (update_polygon polygon_id polygon_data env d).2) = size (table d)
  /\ next_id (update_polygon polygon_id polygon_data env d).2 = next_id d.
Proof.
  unfold update_polygon, try_except. rewrite update_block_run.
  case_faults env; try done;
    destruct (table d !! polygon_id) as [row|] eqn:Hrow; simpl; try done;
    case_faults env; try done.
  all: split; [|split; [by intros Hj; rewrite lookup_insert_ne|split; [|done]]].
  all: try (rewrite map_size_insert_Some; [done | by eexists]).
  all: destruct (decide (j = polygon_id)) as [->|Hne];
    [ rewrite lookup_insert_eq, Hrow; split; intros _; by eexists
    | by rewrite lookup_insert_ne ].
Qed.

(** No call changes the [created_at] of a row: if an id is stored before
    and after a call, whatever the call and whatever the storage layer
    does, its [created_at] is the same. *)
Theorem created_at_never_modified
    (c : Call) (env : Env) (d : Database) (i : Z) (row row' : Row.t)
    (Hbefore : table d !! i = Some row)
    (Hafter : table (invoke c env d).2 !! i = Some row') :
  Row.created_at row' = Row.created_at row.
Proof.
  destruct (invoke_db c env d) as
    [Heq | [(pd & _ & Hfresh & Heq) | [(k & pd & r & _ & Hr & Heq) | (k & _ & Heq)]]];
    rewrite Heq in Hafter; simpl in Hafter.
  - congruence.
  - assert (i <> next_id d) by congruence.
    rewrite lookup_insert_ne in Hafter by done. congruence.
  - destruct (decide (i = k)) as [->|Hne].
    + rewrite lookup_insert_eq in Hafter. injection Hafter as <-.
      simpl. congruence.
    + rewrite lookup_insert_ne in Hafter by done. congruence.
  - destruct (decide (i = k)) as [->|Hne].
    + by rewrite lookup_delete_eq in Hafter.
    + rewrite lookup_delete_ne in Hafter by done. congruence.
Qed.

Lemma created_at_never_modified_witness :
  table db_a !! 1 = Some row_a
  /\ table (invoke (Update 1 (PolygonUpdate.mk (Some "X"%string) None None))
                   (healthy t1) db_a).2 !! 1
     = Some (Row.mk "X" sample_coords ∅ t0 (Some t1))
  /\ Row.created_at (Row.mk "X" sample_coords ∅ t0 (Some t1)) = Row.created_at row_a.
Proof.
  split; [vm_compute; reflexivity|]. split; [vm_compute; reflexivity|].
  apply (created_at_never_modified
           (Update 1 (PolygonUpdate.mk (Some "X"%string) None None))
           (healthy t1) db_a 1 row_a (Row.mk "X" sample_coords ∅ t0 (Some t1)));
    vm_compute; reflexivity.
Defined.

(** ** Responses *)

(** On a reachable table, a response returned by create, get or update,
    whatever the storage layer does, describes a row that is stored after
    the call under the response's id, and that id is positive: the
    identifier 0 that [from_polygon] puts for a missing id is never
    returned. *)
Theorem responses_describe_stored_rows
    (c : Call) (env : Env) (d : Database) (r : PolygonResponse.t)
    (Hreach : reachable d)
    (Hret : (invoke c env d).1 = Return (RPolygon (Some r))) :
  0 < PolygonResponse.id r
  /\ exists row : Row.t,
      table (invoke c env d).2 !! PolygonResponse.id r = Some row
      /\ r = response_of (PolygonResponse.id r, row).
Proof.
  pose proof (reachable_wf d Hreach) as [Hpos Hkeys].
  destruct c as [polygon_data| polygon_id | | polygon_id polygon_data | polygon_id];
    revert Hret; unfold invoke, service_map; run_service env d;
    intros Hret; simpl in Hret; try discriminate Hret;
    injection Hret as <-; simpl.
  all: simplify_eq/=.
  all: split; [first [done | apply Hkeys; by eexists]|].
  all: rewrite ?lookup_insert_eq; eexists.
  all: split; [first [reflexivity | eassumption]|].
  all: first [done | by destruct polygon_data as [[?|] [?|] [?|]]].
Qed.

Lemma responses_describe_stored_rows_witness :
  reachable db_a
  /\ (invoke (Get 1) (healthy t1) db_a).1 = Return (RPolygon (Some (response_of (1, row_a))))
  /\ 0 < PolygonResponse.id (response_of (1, row_a))
  /\ exists row : Row.t,
      table (invoke (Get 1) (healthy t1) db_a).2
        !! PolygonResponse.id (response_of (1, row_a)) = Some row
      /\ response_of (1, row_a)
         = response_of (PolygonResponse.id (response_of (1, row_a)), row).
Proof.
  split; [exact db_a_reachable|]. split; [vm_compute; reflexivity|].
  apply (responses_describe_stored_rows (Get 1) (healthy t1) db_a
           (response_of (1, row_a)) db_a_reachable).
  vm_compute; reflexivity.
Defined.

Lemma response_ids (rows : list (Z * Row.t)) :
  map PolygonResponse.id (map response_of rows) = rows.*1.
Proof. induction rows as [|[i row] rows IH]; simpl; [done | by rewrite IH]. Qed.

(** While the storage layer works, the entries of [list_polygons] have
    pairwise different ids, and [get_polygon] on the id of an entry returns
    that very entry. *)
Theorem list_entries_are_gettable (now later : datetime) (d : Database) :
  exists resp : PolygonListResponse.t,
    list_polygons (healthy now) d = (Return resp, d)
    /\ NoDup (map PolygonResponse.id (PolygonListResponse.polygons resp))
    /\ Forall (fun r => get_polygon (PolygonResponse.id r) (healthy later) d
                        = (Return (Some r), d))
              (PolygonListResponse.polygons resp).
Proof.
  rewrite list_polygons_healthy. eexists. split; [reflexivity|]. simpl.
  pose proof (select_permutation d) as Hperm.
  split.
  - rewrite response_ids. rewrite Hperm. apply NoDup_fst_map_to_list.
  - apply Forall_map, Forall_forall. intros [i row] Hin.
    rewrite Hperm in Hin. apply elem_of_map_to_list in Hin.
    rewrite get_polygon_healthy. simpl. rewrite Hin. done.
Qed.

(** While the storage layer works, [get_polygon] after an update of a
    stored id returns the response the update returned. *)
Theorem get_after_update_round_trip
    (polygon_id : Z) (polygon_data : PolygonUpdate.t) (now later : datetime)
    (d : Database) (row : Row.t)
    (Hrow : table d !! polygon_id = Some row) :
  exists (resp : PolygonResponse.t) (d' : Database),
    update_polygon polygon_id polygon_data (healthy now) d = (Return (Some resp), d')
    /\ get_polygon polygon_id (healthy later) d' = (Return (Some resp), d').
Proof.
  rewrite update_polygon_healthy, Hrow. eexists _, _. split; [reflexivity|].
  rewrite get_polygon_healthy. simpl. rewrite lookup_insert_eq. simpl.
  by destruct polygon_data as [[?|] [?|] [?|]].
Qed.

Lemma get_after_update_round_trip_witness :
  table db_a !! 1 = Some row_a
  /\ exists (resp : PolygonResponse.t) (d' : Database),
    update_polygon 1 (PolygonUpdate.mk None (Some []) None) (healthy t1) db_a
      = (Return (Some resp), d')
    /\ get_polygon 1 (healthy t1) d' = (Return (Some resp), d').
Proof.
  split; [vm_compute; reflexivity|].
  apply (get_after_update_round_trip 1 (PolygonUpdate.mk None (Some []) None)
           t1 t1 db_a row_a).
  vm_compute; reflexivity.
Defined.

(** ** Create and delete together *)

(** While the storage layer works, deleting the polygon that was just
    created on a reachable table returns [True] and leaves the rows the
    table had before the create. *)
Theorem delete_undoes_create
    (polygon_data : PolygonCreate.t) (now later : datetime) (d : Database)
    (Hreach : reachable d) :
  exists (resp : PolygonResponse.t) (d1 d2 : Database),
    create_polygon polygon_data (healthy now) d = (Return (Some resp), d1)
    /\ delete_polygon (PolygonResponse.id resp) (healthy later) d1 = (Return true, d2)
    /\ table d2 = table d.
Proof.
  pose proof (wf_next_id_fresh d (reachable_wf d Hreach)) as Hfresh.
  rewrite (create_polygon_healthy polygon_data now d Hfresh).
  eexists _, _, _. split; [reflexivity|]. simpl.
  rewrite delete_polygon_healthy. simpl. rewrite lookup_insert_eq.
  split; [reflexivity|]. simpl.
  rewrite delete_insert_eq. by apply delete_id.
Qed.

Lemma delete_undoes_create_witness :
  reachable db_a
  /\ exists (resp : PolygonResponse.t) (d1 d2 : Database),
    create_polygon req0 (healthy t1) db_a = (Return (Some resp), d1)
    /\ delete_polygon (PolygonResponse.id resp) (healthy t1) d1 = (Return true, d2)
    /\ table d2 = table db_a.
Proof.
  split; [exact db_a_reachable|].
  apply (delete_undoes_create req0 t1 t1 db_a db_a_reachable).
Defined.

(** Once [delete_polygon] has returned [True] for an id, then, while the
    storage layer works, [polygon_exists] and a second delete of that id
    return [False], get returns [None], and the second delete changes
    nothing. *)
Theorem deleted_id_is_gone
    (polygon_id : Z) (env : Env) (now : datetime) (d : Database)
    (Hdeleted : (delete_polygon polygon_id env d).1 = Return true) :
  polygon_exists polygon_id (healthy now) (delete_polygon polygon_id env d).2
    = (Return false, (delete_polygon polygon_id env d).2)
  /\ delete_polygon polygon_id (healthy now) (delete_polygon polygon_id env d).2
    = (Return false, (delete_polygon polygon_id env d).2)
  /\ get_polygon polygon_id (healthy now) (delete_polygon polygon_id env d).2
    = (Return None, (delete_polygon polygon_id env d).2).
Proof.
  revert Hdeleted. rewrite (delete_polygon_run polygon_id env d).
  case_faults env; try discriminate;
    destruct (table d !! polygon_id) eqn:Hrow; simpl; try discriminate;
    case_faults env; try discriminate.
  intros _.
  rewrite delete_polygon_healthy, get_polygon_healthy.
  unfold polygon_exists, try_except. rewrite exists_block_run. simpl.
  rewrite lookup_delete_eq. simpl. done.
Qed.

Lemma deleted_id_is_gone_witness :
  (delete_polygon 1 (healthy t1) db_a).1 = Return true
  /\ polygon_exists 1 (healthy t1) (delete_polygon 1 (healthy t1) db_a).2
    = (Return false, (delete_polygon 1 (healthy t1) db_a).2)
  /\ delete_polygon 1 (healthy t1) (delete_polygon 1 (healthy t1) db_a).2
    = (Return false, (delete_polygon 1 (healthy t1) db_a).2)
  /\ get_polygon 1 (healthy t1) (delete_polygon 1 (healthy t1) db_a).2
    = (Return None, (delete_polygon 1 (healthy t1) db_a).2).
Proof.
  split; [vm_compute; reflexivity|].
  apply (deleted_id_is_gone 1 (healthy t1) t1 db_a).
  vm_compute; reflexivity.
Defined.

(** While the storage layer works, a polygon created on a reachable table
    appears in the next listing, and the total of that listing is one more
    than the number of rows before the create. *)
Theorem created_polygon_is_listed
    (polygon_data : PolygonCreate.t) (now later : datetime) (d : Database)
    (Hreach : reachable d) :
  exists (resp : PolygonResponse.t) (d' : Database) (l : PolygonListResponse.t),
    create_polygon polygon_data (healthy now) d = (Return (Some resp), d')
    /\ list_polygons (healthy later) d' = (Return l, d')
    /\ resp ∈ PolygonListResponse.polygons l
    /\ PolygonListResponse.total l = Z.of_nat (size (table d)) + 1.
Proof.
  pose proof (wf_next_id_fresh d (reachable_wf d Hreach)) as Hfresh.
  rewrite (create_polygon_healthy polygon_data now d Hfresh).
  eexists _, _, _. split; [reflexivity|].
  rewrite list_polygons_healthy. split; [reflexivity|]. simpl. split.
  - apply list_elem_of_In, in_map_iff.
    exists (next_id d, to_row (new_polygon polygon_data now)). split; [done|].
    apply list_elem_of_In. rewrite select_permutation. simpl.
    apply elem_of_map_to_list. by rewrite lookup_insert_eq.
  - rewrite length_map, select_length. simpl.
    rewrite map_size_insert_None by done. lia.
Qed.

Lemma created_polygon_is_listed_witness :
  reachable db_a
  /\ exists (resp : PolygonResponse.t) (d' : Database) (l : PolygonListResponse.t),
    create_polygon req0 (healthy t1) db_a = (Return (Some resp), d')
    /\ list_polygons (healthy t1) d' = (Return l, d')
    /\ resp ∈ PolygonListResponse.polygons l
    /\ PolygonListResponse.total l = Z.of_nat (size (table db_a)) + 1.
Proof.
  split; [exact db_a_reachable|].
  apply (created_polygon_is_listed req0 t1 t1 db_a db_a_reachable).
Defined.

(** * Strings and timestamps *)

(** ** [str.strip] *)

Lemma app_cons (c : ascii) (s t : string) : String c s +:+ t = String c (s +:+ t).
Proof. reflexivity. Qed.

Lemma app_empty_l (t : string) : EmptyString +:+ t = t.
Proof. reflexivity. Qed.

Lemma app_empty_r (s : string) : s +:+ EmptyString = s.
Proof. induction s as [|c s IH]; [done|]. by rewrite app_cons, IH. Qed.

Lemma lstrip_split (s : string) :
  exists pre : string,
    s = pre +:+ lstrip s /\ all_isspace pre = true
    /\ starts_with_space (lstrip s) = false.
Proof.
  induction s as [|c s (pre & Hs & Hpre & Hstart)]; simpl.
  - by exists EmptyString.
  - destruct (isspace c) eqn:Hc.
    + exists (String c pre). rewrite app_cons, <- Hs. simpl. by rewrite Hc, Hpre.
    + exists EmptyString. rewrite app_empty_l. simpl. by rewrite Hc.
Qed.

Lemma rstrip_split (s : string) :
  exists post : string,
    s = rstrip s +:+ post /\ all_isspace post = true
    /\ ends_with_space (rstrip s) = false.
Proof.
  induction s as [|c s (post & Hs & Hpost & Hend)]; simpl.
  - by exists EmptyString.
  - destruct (rstrip s) as [|c' t] eqn:Hr.
    + rewrite app_empty_l in Hs. subst post.
      destruct (isspace c) eqn:Hc.
      * exists (String c s). rewrite app_empty_l. simpl. by rewrite Hc, Hpost.
      * exists s. rewrite app_cons, app_empty_l. simpl. by rewrite Hc.
    + exists post. rewrite app_cons, <- Hs. by destruct t.
Qed.

Lemma rstrip_keeps_start (s : string) :
  starts_with_space s = false -> starts_with_space (rstrip s) = false.
Proof.
  destruct s as [|c s]; simpl; [done|]. intros Hc.
  destruct (rstrip s); [by rewrite Hc | done].
Qed.

Lemma lstrip_id (s : string) : starts_with_space s = false -> lstrip s = s.
Proof. destruct s as [|c s]; simpl; [done|]. by intros ->. Qed.

Lemma rstrip_idemp (s : string) : rstrip (rstrip s) = rstrip s.
Proof.
  induction s as [|c s IH]; simpl; [done|].
  destruct (rstrip s) as [|c' t] eqn:Hr.
  - destruct (isspace c) eqn:Hc; simpl; [done | by rewrite Hc].
  - simpl in *. by rewrite IH.
Qed.

Lemma all_isspace_app (s t : string) :
  all_isspace (s +:+ t) = all_isspace s && all_isspace t.
Proof.
  induction s as [|c s IH]; [done|].
  rewrite app_cons. simpl. rewrite IH. by rewrite andb_assoc.
Qed.

Lemma lstrip_all_space (s : string) : all_isspace s = true -> lstrip s = EmptyString.
Proof.
  induction s as [|c s IH]; simpl; [done|].
  rewrite andb_true_iff. intros [-> Hs]. by apply IH.
Qed.

Lemma strip_split_aux (s : string) :
  exists pre post : string,
    s = pre +:+ strip s +:+ post
    /\ all_isspace pre = true /\ all_isspace post = true.
Proof.
  unfold strip.
  destruct (lstrip_split s) as (pre & Hs & Hpre & _).
  destruct (rstrip_split (lstrip s)) as (post & Hl & Hpost & _).
  exists pre, post. split; [|done]. by rewrite <- Hl.
Qed.

Lemma strip_outer_aux (s : string) :
  starts_with_space (strip s) = false /\ ends_with_space (strip s) = false.
Proof.
  unfold strip.
  destruct (lstrip_split s) as (pre & _ & _ & Hstart).
  destruct (rstrip_split (lstrip s)) as (post & _ & _ & Hend).
  split; [by apply rstrip_keeps_start | done].
Qed.

(** [strip] removes whitespace from the two ends and nothing else: the
    argument is the result between two runs of whitespace, and the result
    neither starts nor ends with whitespace. *)
Lemma strip_removes_outer_whitespace (s : string) :
  (exists pre post : string,
      s = pre +:+ strip s +:+ post
      /\ all_isspace pre = true /\ all_isspace post = true)
  /\ starts_with_space (strip s) = false
  /\ ends_with_space (strip s) = false.
Proof.
  unfold strip.
  destruct (lstrip_split s) as (pre & Hs & Hpre & Hstart).
  destruct (rstrip_split (lstrip s)) as (post & Hl & Hpost & Hend).
  split; [|split; [by apply rstrip_keeps_start | done]].
  exists pre, post. split; [|done]. by rewrite <- Hl.
Qed.

(** [strip] is idempotent, and its result is empty exactly when the
    argument holds nothing but whitespace. *)
Lemma strip_idempotent_and_blank (s : string) :
  strip (strip s) = strip s
  /\ (strip s = EmptyString <-> all_isspace s = true).
Proof.
  split.
  - unfold strip. rewrite (lstrip_id (rstrip (lstrip s))).
    + apply rstrip_idemp.
    + apply rstrip_keeps_start. by destruct (lstrip_split s) as (? & ? & ? & ?).
  - split.
    + intros Hempty.
      destruct (strip_split_aux s) as (pre & post & Hs & Hpre & Hpost).
      rewrite Hs, Hempty. by rewrite !all_isspace_app, Hpre, Hpost.
    + intros Hall. unfold strip. by rewrite (lstrip_all_space s Hall).
Qed.

(** ** [datetime.isoformat] *)

Lemma length_app_string (s t : string) :
  String.length (s +:+ t) = (String.length s + String.length t)%nat.
Proof. induction s as [|c s IH]; [done|]. rewrite app_cons. simpl. by rewrite IH. Qed.

Lemma zfill_length (width : nat) (n : Z) : String.length (zfill width n) = width.
Proof.
  revert n. induction width as [|w IH]; intros n; simpl; [done|].
  rewrite length_app_string, IH. simpl. lia.
Qed.

Lemma app_inj_length (s1 s2 t1 t2 : string) :
  String.length s1 = String.length s2 ->
  s1 +:+ t1 = s2 +:+ t2 -> s1 = s2 /\ t1 = t2.
Proof.
  revert s2. induction s1 as [|c s1 IH]; intros [|c2 s2] Hlen Heq;
    simpl in Hlen; try discriminate.
  - by rewrite !app_empty_l in Heq.
  - rewrite !app_cons in Heq. injection Heq as -> Heq.
    destruct (IH s2) as [-> ->]; [lia | done | done].
Qed.

Lemma digit_inj (a b : Z) :
  0 <= a < 10 -> 0 <= b < 10 -> digit a = digit b -> a = b.
Proof.
  intros Ha Hb Heq. unfold digit in Heq.
  apply (f_equal nat_of_ascii) in Heq.
  rewrite !nat_ascii_embedding in Heq by lia. lia.
Qed.

Lemma zfill_inj (width : nat) (n m : Z) :
  0 <= n < 10 ^ Z.of_nat width -> 0 <= m < 10 ^ Z.of_nat width ->
  zfill width n = zfill width m -> n = m.
Proof.
  revert n m. induction width as [|w IH]; intros n m Hn Hm Heq.
  - simpl in Hn, Hm. lia.
  - simpl in Heq.
    apply app_inj_length in Heq as [Hhigh Hlow]; [|by rewrite !zfill_length].
    injection Hlow as Hlow.
    rewrite Nat2Z.inj_succ, Z.pow_succ_r in Hn, Hm by lia.
    apply digit_inj in Hlow;
      [|apply Z.mod_pos_bound; lia|apply Z.mod_pos_bound; lia].
    apply IH in Hhigh;
      [|split; [apply Z.div_pos; lia | apply Z.div_lt_upper_bound; lia]
       |split; [apply Z.div_pos; lia | apply Z.div_lt_upper_bound; lia]].
    rewrite (Z.div_mod n 10), (Z.div_mod m 10) by lia. by rewrite Hhigh, Hlow.
Qed.

Lemma sep_inj (c : ascii) (s t : string) :
  String c EmptyString +:+ s = String c EmptyString +:+ t -> s = t.
Proof. rewrite !app_cons, !app_empty_l. by intros [= ->]. Qed.

Lemma date_prefix_aux (d : datetime) : substring 0 10 (isoformat d) = isodate d.
Proof.
  unfold isoformat, isodate.
  remember (zfill 2 (hour d) +:+ ":" +:+ zfill 2 (minute d) +:+ ":"
            +:+ zfill 2 (second d)
            +:+ (if microsecond d =? 0 then EmptyString
                 else "." +:+ zfill 6 (microsecond d))) as rest.
  pose proof (zfill_length 4 (year d)) as Hy.
  pose proof (zfill_length 2 (month d)) as Hm.
  pose proof (zfill_length 2 (day d)) as Hd.
  destruct (zfill 4 (year d)) as [|y1 [|y2 [|y3 [|y4 [|? ?]]]]]; try discriminate.
  destruct (zfill 2 (month d)) as [|m1 [|m2 [|? ?]]]; try discriminate.
  destruct (zfill 2 (day d)) as [|d1 [|d2 [|? ?]]]; try discriminate.
  reflexivity.
Qed.

(** The ISO string has 19 characters when the microsecond field is zero
    and 26 otherwise, and its first ten characters are the date. *)
Lemma isoformat_shape (d : datetime) :
  String.length (isoformat d) = (if microsecond d =? 0 then 19%nat else 26%nat)
  /\ substring 0 10 (isoformat d) = isodate d.
Proof.
  split.
  - unfold isoformat.
    destruct (microsecond d =? 0);
      rewrite !length_app_string, !zfill_length; reflexivity.
  - apply date_prefix_aux.
Qed.

(** On the datetimes Python can construct, [isoformat] loses nothing: two
    of them with the same ISO string are equal. *)
Lemma isoformat_inj (a b : datetime)
    (Ha : datetime_valid a) (Hb : datetime_valid b)
    (Heq : isoformat a = isoformat b) :
  a = b.
Proof.
  destruct a as [ya ma da ha mia sa ua], b as [yb mb db hb mib sb ub].
  unfold datetime_valid in Ha, Hb. simpl in Ha, Hb.
  unfold isoformat in Heq.
  cbn [year month day hour minute second microsecond] in Heq.
  apply app_inj_length in Heq as [Hy Heq]; [|by rewrite !zfill_length].
  apply sep_inj in Heq.
  apply app_inj_length in Heq as [Hm Heq]; [|by rewrite !zfill_length].
  apply sep_inj in Heq.
  apply app_inj_length in Heq as [Hd Heq]; [|by rewrite !zfill_length].
  apply sep_inj in Heq.
  apply app_inj_length in Heq as [Hh Heq]; [|by rewrite !zfill_length].
  apply sep_inj in Heq.
  apply app_inj_length in Heq as [Hmi Heq]; [|by rewrite !zfill_length].
  apply sep_inj in Heq.
  apply app_inj_length in Heq as [Hs Heq]; [|by rewrite !zfill_length].
  apply zfill_inj in Hy, Hm, Hd, Hh, Hmi, Hs; simpl; try lia.
  assert (ua = ub) as Hu.
  { destruct (Z.eqb_spec ua 0) as [->|Hua], (Z.eqb_spec ub 0) as [->|Hub];
      try done; try discriminate Heq.
    apply sep_inj in Heq. apply zfill_inj in Heq; simpl; lia. }
  by subst.
Qed.

(** ** [PolygonResponse.from_polygon] *)

(** A response loses nothing of the row it was built from: when the
    timestamps of two stored rows are datetimes Python can construct and
    their responses are equal, the ids are equal and so are the rows. *)
Theorem responses_determine_rows (i j : Z) (row row' : Row.t)
    (Hdates : row_dates_valid row) (Hdates' : row_dates_valid row')
    (Heq : response_of (i, row) = response_of (j, row')) :
  i = j /\ row = row'.
Proof.
  destruct row as [n c p ca ua], row' as [n' c' p' ca' ua'].
  destruct Hdates as [Hc Hu], Hdates' as [Hc' Hu'].
  pose proof (f_equal PolygonResponse.id Heq) as Hid.
  pose proof (f_equal PolygonResponse.name Heq) as Hn.
  pose proof (f_equal PolygonResponse.coordinates Heq) as Hco.
  pose proof (f_equal PolygonResponse.properties Heq) as Hp.
  pose proof (f_equal PolygonResponse.created_at Heq) as Hca.
  pose proof (f_equal PolygonResponse.updated_at Heq) as Hua.
  clear Heq.
  unfold response_of, PolygonResponse.from_polygon, of_row in *.
  cbn [fst snd PolygonResponse.id PolygonResponse.name PolygonResponse.coordinates
       PolygonResponse.properties PolygonResponse.created_at
       PolygonResponse.updated_at Polygon.id Polygon.name Polygon.coordinates
       Polygon.properties Polygon.created_at Polygon.updated_at Row.name
       Row.coordinates Row.properties Row.created_at Row.updated_at] in *.
  apply isoformat_inj in Hca; [|done|done].
  assert (ua = ua') as ->.
  { destruct ua as [u|], ua' as [u'|]; try discriminate Hua; [|done].
    apply (inj Some) in Hua. apply isoformat_inj in Hua; [by subst|done|done]. }
  by subst.
Qed.

Lemma responses_determine_rows_witness :
  row_dates_valid row_a /\ row_dates_valid row_a
  /\ response_of (1, row_a) = response_of (1, row_a)
  /\ 1 = 1 /\ row_a = row_a.
Proof.
  assert (Hv : row_dates_valid row_a).
  { split; [vm_compute; intuition discriminate | exact I]. }
  split; [exact Hv|]. split; [exact Hv|]. split; [reflexivity|].
  apply (responses_determine_rows 1 1 row_a row_a Hv Hv). reflexivity.
Defined.

(** * The handlers of the map application *)

Ltac unfold_ui :=
  unfold MapApp._save_polygon, MapApp._delete_polygon, MapApp._cancel_save,
    MapApp._clear_current_drawing, MapApp._refresh_polygon_list,
    MapApp._load_all_polygons_to_map, MapApp._on_polygon_data_received,
    MapApp.PolygonCreate_call, MapApp.ui_try, MapApp.ui_raise,
    MapApp.call_service, MapApp.notify, MapApp.run_javascript, MapApp.get_self,
    MapApp.set_self, MapApp.ui, mbind, mret, MapApp.UI_bind, MapApp.UI_ret in *.

Lemma list_polygons_listing (env : Env) (d : Database) :
  list_polygons env d = (Return (listing env d), d).
Proof.
  unfold listing, list_polygons, try_except. rewrite list_block_run.
  case_faults env; done.
Qed.

Lemma refresh_run (env : Env) (w : MapApp.World) :
  MapApp._refresh_polygon_list env w =
  (MapApp.UiReturn tt, refreshed env w).
Proof.
  unfold refreshed. unfold_ui. simpl.
  destruct (MapApp.polygon_list_container (MapApp.app w)); simpl; [|by destruct w].
  rewrite list_polygons_listing. simpl. unfold sidebar_content.
  destruct (PolygonListResponse.total (listing env (MapApp.database w)) =? 0);
    reflexivity.
Qed.

Lemma load_run (env : Env) (w : MapApp.World) :
  MapApp._load_all_polygons_to_map env w =
  (MapApp.UiReturn tt, map_loaded env w).
Proof.
  unfold map_loaded, add_effect. unfold_ui. simpl.
  rewrite list_polygons_listing. reflexivity.
Qed.

Lemma save_run (coordinates_of : json -> option Coordinates) (name : string)
    (env env_refresh env_load : Env) (w : MapApp.World) :
  MapApp._save_polygon coordinates_of name env env_refresh env_load w =
  (MapApp.UiReturn tt,
   if negb (MapApp.str_bool name) || negb (MapApp.str_bool (strip name))
   then add_effect (MapApp.Notify MapApp.MsgEnterName MapApp.TWarning) w
   else
     match MapApp.current_drawing_data (MapApp.app w) with
     | None => add_effect (MapApp.Notify MapApp.MsgNoPolygon MapApp.TWarning) w
     | Some drawing =>
         match coordinates_of drawing with
         | None =>
             add_effect (MapApp.Notify (MapApp.MsgSaveError MapApp.ValidationError)
                                       MapApp.TNegative) w
         | Some c =>
             if PolygonCreate.validate (save_request name c)
             then
               match create_polygon (save_request name c) env (MapApp.database w) with
               | (Return (Some _), d) =>
                   map_loaded env_load
                     (refreshed env_refresh
                        (MapApp.mk_World
                           (MapApp.set_save_card_visible false
                              (MapApp.set_current_drawing_data None (MapApp.app w)))
                           d
                           (MapApp.effects w
                            ++ [MapApp.Notify (MapApp.MsgSaved name) MapApp.TPositive])))
               | (Return None, d) =>
                   MapApp.mk_World (MapApp.app w) d
                     (MapApp.effects w
                      ++ [MapApp.Notify MapApp.MsgSaveFailed MapApp.TNegative])
               | (Raise e, d) =>
                   MapApp.mk_World (MapApp.app w) d
                     (MapApp.effects w
                      ++ [MapApp.Notify (MapApp.MsgSaveError (MapApp.ServiceError e))
                                        MapApp.TNegative])
               end
             else
               add_effect (MapApp.Notify (MapApp.MsgSaveError MapApp.ValidationError)
                                         MapApp.TNegative) w
         end
     end).
Proof.
  unfold MapApp._save_polygon.
  destruct (negb (MapApp.str_bool name) || negb (MapApp.str_bool (strip name)));
    [reflexivity|].
  unfold mbind at 1, MapApp.UI_bind at 1. unfold MapApp.get_self at 1, MapApp.ui at 1.
  destruct (MapApp.current_drawing_data (MapApp.app w)) as [drawing|]; [|reflexivity].
  unfold MapApp.ui_try, MapApp.ui.
  unfold mbind at 1, MapApp.UI_bind at 1.
  unfold MapApp.PolygonCreate_call.
  destruct (coordinates_of drawing) as [c|]; [|reflexivity].
  unfold PolygonCreate.init. simpl (default _ _).
  fold default_style. fold (save_request name c).
  destruct (PolygonCreate.validate (save_request name c)); [|reflexivity].
  unfold mret at 1, MapApp.UI_ret at 1.
  unfold mbind at 1, MapApp.UI_bind at 1.
  unfold MapApp.call_service at 1, MapApp.ui at 1. simpl (MapApp.database w).
  destruct (create_polygon (save_request name c) env (MapApp.database w))
    as [[[r|]|e] d]; try reflexivity.
  unfold mbind, MapApp.UI_bind. unfold MapApp.notify at 1, MapApp.ui at 1.
  unfold MapApp.set_self, MapApp.ui. simpl.
  rewrite refresh_run, load_run. reflexivity.
Qed.

Lemma create_polygon_db (polygon_data : PolygonCreate.t) (env : Env) (d : Database) :
  (create_polygon polygon_data env d).2 = d
  \/ (table d !! next_id d = None
      /\ (create_polygon polygon_data env d).2 =
         mk_Database (<[next_id d := to_row (new_polygon polygon_data (utcnow env))]>
                        (table d)) (next_id d + 1)).
Proof.
  unfold create_polygon, try_except. rewrite create_block_run.
  case_faults env; auto;
    destruct (table d !! next_id d) eqn:Hfresh; simpl; auto.
Qed.

Lemma create_polygon_some_db (polygon_data : PolygonCreate.t) (env : Env)
    (d : Database) (r : PolygonResponse.t) :
  (create_polygon polygon_data env d).1 = Return (Some r) ->
  (create_polygon polygon_data env d).2 =
  mk_Database (<[next_id d := to_row (new_polygon polygon_data (utcnow env))]>
                 (table d)) (next_id d + 1).
Proof.
  unfold create_polygon, try_except. rewrite create_block_run.
  case_faults env; try discriminate;
    destruct (table d !! next_id d) eqn:Hfresh; simpl; try discriminate; done.
Qed.

Lemma str_bool_false (s : string) : MapApp.str_bool s = false <-> s = EmptyString.
Proof. destruct s; simpl; split; intros; congruence. Qed.

(** ** Saving a drawing *)

(** When the name is blank after trimming, or there is no drawing,
    [_save_polygon] gives one warning and changes neither the table nor
    the state of the application, whatever the storage layer would do. *)
Theorem save_without_name_or_drawing
    (coordinates_of : json -> option Coordinates) (name : string)
    (env env_refresh env_load : Env) (w : MapApp.World)
    (Hmissing : strip name = EmptyString
                \/ MapApp.current_drawing_data (MapApp.app w) = None) :
  exists m : MapApp.Message,
    MapApp._save_polygon coordinates_of name env env_refresh env_load w
    = (MapApp.UiReturn tt, add_effect (MapApp.Notify m MapApp.TWarning) w).
Proof.
  rewrite save_run. destruct Hmissing as [Hblank | Hnone].
  - rewrite Hblank. simpl. rewrite orb_true_r. by eexists.
  - destruct (negb (MapApp.str_bool name) || negb (MapApp.str_bool (strip name)));
      [by eexists|].
    rewrite Hnone. by eexists.
Qed.

Lemma save_without_name_or_drawing_witness :
  (strip "  " = EmptyString
   \/ MapApp.current_drawing_data (MapApp.app sample_world) = None)
  /\ exists m : MapApp.Message,
    MapApp._save_polygon sample_coordinates_of "  " (healthy t1) (healthy t1)
                         (healthy t1) sample_world
    = (MapApp.UiReturn tt, add_effect (MapApp.Notify m MapApp.TWarning) sample_world).
Proof.
  assert (H : strip "  " = EmptyString
              \/ MapApp.current_drawing_data (MapApp.app sample_world) = None)
    by (left; reflexivity).
  split; [exact H|].
  apply (save_without_name_or_drawing sample_coordinates_of "  " (healthy t1)
           (healthy t1) (healthy t1) sample_world H).
Defined.

(** Whatever the name, the drawing and the storage layer, [_save_polygon]
    leaves the table as it was or adds exactly one row to it: the row goes
    under the next identifier, which no row had, and the table has one row
    more. The name of that row is the trimmed input: it is not empty, has at
    most 255 characters, neither starts nor ends with whitespace and is left
    as it is by another trimming; its coordinates are the drawing as the
    validation returned it, whatever rings it holds. *)
Theorem save_stores_only_trimmed_names
    (coordinates_of : json -> option Coordinates) (name : string)
    (env env_refresh env_load : Env) (w : MapApp.World) :
  MapApp.database
    (MapApp._save_polygon coordinates_of name env env_refresh env_load w).2
  = MapApp.database w
  \/ exists (drawing : json) (c : Coordinates),
      MapApp.current_drawing_data (MapApp.app w) = Some drawing
      /\ coordinates_of drawing = Some c
      /\ table (MapApp.database w) !! next_id (MapApp.database w) = None
      /\ size (table (MapApp.database
                        (MapApp._save_polygon coordinates_of name env env_refresh
                                              env_load w).2))
         = S (size (table (MapApp.database w)))
      /\ strip name <> EmptyString
      /\ (String.length (strip name) <= 255)%nat
      /\ starts_with_space (strip name) = false
      /\ ends_with_space (strip name) = false
      /\ strip (strip name) = strip name
      /\ MapApp.database
           (MapApp._save_polygon coordinates_of name env env_refresh env_load w).2
         = mk_Database
             (<[next_id (MapApp.database w) :=
                  Row.mk (strip name) c default_style (utcnow env) None]>
                (table (MapApp.database w)))
             (next_id (MapApp.database w) + 1).
Proof.
  rewrite save_run. simpl.
  destruct (negb (MapApp.str_bool name) || negb (MapApp.str_bool (strip name)))
    eqn:Hcond; [by left|].
  destruct (MapApp.current_drawing_data (MapApp.app w)) as [drawing|]; [|by left].
  destruct (coordinates_of drawing) as [c|] eqn:Hc; [|by left].
  destruct (PolygonCreate.validate (save_request name c)) eqn:Hvalid; [|by left].
  assert (Hdb : MapApp.database
            match create_polygon (save_request name c) env (MapApp.database w) with
            | (Return (Some _), d) =>
                map_loaded env_load
                  (refreshed env_refresh
                     (MapApp.mk_World
                        (MapApp.set_save_card_visible false
                           (MapApp.set_current_drawing_data None (MapApp.app w)))
                        d
                        (MapApp.effects w
                         ++ [MapApp.Notify (MapApp.MsgSaved name) MapApp.TPositive])))
            | (Return None, d) =>
                MapApp.mk_World (MapApp.app w) d
                  (MapApp.effects w
                   ++ [MapApp.Notify MapApp.MsgSaveFailed MapApp.TNegative])
            | (Raise e, d) =>
                MapApp.mk_World (MapApp.app w) d
                  (MapApp.effects w
                   ++ [MapApp.Notify (MapApp.MsgSaveError (MapApp.ServiceError e))
                                     MapApp.TNegative])
            end
          = (create_polygon (save_request name c) env (MapApp.database w)).2).
  { by destruct (create_polygon (save_request name c) env (MapApp.database w))
      as [[[r|]|e] d]. }
  rewrite Hdb.
  destruct (create_polygon_db (save_request name c) env (MapApp.database w))
    as [Hsame | [Hfresh Hnew]]; [by left|].
  right. exists drawing, c.
  apply orb_false_iff in Hcond as [_ Hname].
  apply negb_false_iff in Hname.
  pose proof (create_valid_row_ok (save_request name c) (utcnow env) Hvalid)
    as Hlen. unfold row_ok in Hlen. simpl in Hlen.
  destruct (strip_outer_aux name) as [Hstart Hend].
  destruct (strip_idempotent_and_blank name) as [Hidem _].
  rewrite Hnew.
  repeat split; try done; try lia.
  - simpl. by rewrite map_size_insert_None.
  - intros Hempty. rewrite Hempty in Hname. discriminate.
Qed.

Lemma create_polygon_some_fresh (polygon_data : PolygonCreate.t) (env : Env)
    (d : Database) (r : PolygonResponse.t) :
  (create_polygon polygon_data env d).1 = Return (Some r) ->
  table d !! next_id d = None.
Proof.
  unfold create_polygon, try_except. rewrite create_block_run.
  case_faults env; try discriminate;
    destruct (table d !! next_id d) eqn:Hfresh; simpl; try discriminate; done.
Qed.

(** [_save_polygon] never raises. Among the notifications it adds, one of
    success is there only when the new row, named by the trimmed input, is
    in the table under an identifier no row had; the drawing is then
    cleared and the save card is not visible. When it adds no notification
    of success (a warning, a validation error, a failed save) the state of
    the application is as it was. *)
Theorem save_changes_form_only_on_success
    (coordinates_of : json -> option Coordinates) (name : string)
    (env env_refresh env_load : Env) (w : MapApp.World) :
  exists (w' : MapApp.World) (new : list MapApp.Effect),
    MapApp._save_polygon coordinates_of name env env_refresh env_load w
    = (MapApp.UiReturn tt, w')
    /\ MapApp.effects w' = MapApp.effects w ++ new
    /\ (forall (n : string) (type : MapApp.NotifyType),
          MapApp.Notify (MapApp.MsgSaved n) type ∈ new ->
          n = name /\ type = MapApp.TPositive
          /\ table (MapApp.database w) !! next_id (MapApp.database w) = None
          /\ (exists row : Row.t,
                table (MapApp.database w') !! next_id (MapApp.database w) = Some row
                /\ Row.name row = strip name)
          /\ MapApp.current_drawing_data (MapApp.app w') = None
          /\ MapApp.save_card (MapApp.app w') <> Some true)
    /\ ((forall (n : string) (type : MapApp.NotifyType),
           MapApp.Notify (MapApp.MsgSaved n) type ∉ new) ->
        MapApp.app w' = MapApp.app w).
Proof.
  rewrite save_run.
  destruct w as [[me plc cdd sc pdi] d0 eff].
  assert (Hquiet : forall (m : MapApp.Message) (ty : MapApp.NotifyType),
             (forall n, m <> MapApp.MsgSaved n) ->
             exists (w' : MapApp.World) (new : list MapApp.Effect),
               (MapApp.UiReturn tt,
                add_effect (MapApp.Notify m ty)
                  (MapApp.mk_World (MapApp.mk me plc cdd sc pdi) d0 eff))
               = (MapApp.UiReturn tt, w')
               /\ MapApp.effects w' = eff ++ new
               /\ (forall (n : string) (type : MapApp.NotifyType),
                     MapApp.Notify (MapApp.MsgSaved n) type ∈ new ->
                     n = name /\ type = MapApp.TPositive
                     /\ table d0 !! next_id d0 = None
                     /\ (exists row : Row.t,
                           table (MapApp.database w') !! next_id d0 = Some row
                           /\ Row.name row = strip name)
                     /\ MapApp.current_drawing_data (MapApp.app w') = None
                     /\ MapApp.save_card (MapApp.app w') <> Some true)
               /\ ((forall (n : string) (type : MapApp.NotifyType),
                      MapApp.Notify (MapApp.MsgSaved n) type ∉ new) ->
                   MapApp.app w' = MapApp.mk me plc cdd sc pdi)).
  { intros m ty Hm. eexists _, [MapApp.Notify m ty].
    split; [reflexivity|]. split; [reflexivity|]. split; [|done].
    intros n type Hin. apply list_elem_of_singleton in Hin.
    injection Hin as Hin _. by destruct (Hm n). }
  cbn [MapApp.app MapApp.database MapApp.effects MapApp.current_drawing_data].
  destruct (negb (MapApp.str_bool name) || negb (MapApp.str_bool (strip name)));
    [by apply Hquiet|].
  destruct cdd as [drawing|]; [|by apply Hquiet].
  destruct (coordinates_of drawing) as [c|]; [|by apply Hquiet].
  destruct (PolygonCreate.validate (save_request name c)); [|by apply Hquiet].
  pose proof (create_polygon_some_db (save_request name c) env d0) as Hsome.
  pose proof (create_polygon_some_fresh (save_request name c) env d0) as Hfresh.
  destruct (create_polygon (save_request name c) env d0) as [[[r|]|e] d].
  - simpl in Hsome, Hfresh. rewrite (Hsome r eq_refl).
    specialize (Hfresh r eq_refl).
    unfold map_loaded, add_effect, refreshed, MapApp.set_save_card_visible.
    eexists _, [MapApp.Notify (MapApp.MsgSaved name) MapApp.TPositive; _].
    split; [reflexivity|].
    split; [by destruct sc, plc; simpl; rewrite <- app_assoc|].
    split.
    + intros n type Hin.
      apply elem_of_cons in Hin as [Hin | Hin];
        [|apply list_elem_of_singleton in Hin; discriminate Hin].
      injection Hin as -> ->.
      repeat split; try done; destruct sc, plc; simpl; try done;
        rewrite lookup_insert_eq; by eexists.
    + intros Hnone. exfalso.
      apply (Hnone name MapApp.TPositive). apply elem_of_cons. by left.
  - eexists _, [_]. split; [reflexivity|]. split; [reflexivity|].
    split; [|done]. intros n type Hin.
    apply list_elem_of_singleton in Hin. discriminate Hin.
  - eexists _, [_]. split; [reflexivity|]. split; [reflexivity|].
    split; [|done]. intros n type Hin.
    apply list_elem_of_singleton in Hin. discriminate Hin.
Qed.

(** ** The sidebar *)

Lemma card_response_of (ir : Z * Row.t) : MapApp.card (response_of ir) = row_card ir.
Proof.
  unfold MapApp.card, row_card, response_of, PolygonResponse.from_polygon, of_row.
  cbn [PolygonResponse.name PolygonResponse.created_at PolygonResponse.id
       Polygon.name Polygon.created_at Polygon.id].
  by rewrite (date_prefix_aux (Row.created_at ir.2)).
Qed.

Lemma cards_of_rows (rows : list (Z * Row.t)) :
  map MapApp.card (map response_of rows) = map row_card rows.
Proof.
  induction rows as [|ir rows IH]; [done|].
  cbn [map]. by rewrite card_response_of, IH.
Qed.

Lemma sidebar_healthy (now : datetime) (d : Database) :
  sidebar_content (listing (healthy now) d) =
  match select_order_by_created_at_desc d with
  | [] => [MapApp.EmptyLabel]
  | rows => map row_card rows
  end.
Proof.
  unfold listing. rewrite list_polygons_healthy.
  cbn [fst]. unfold sidebar_content.
  cbn [PolygonListResponse.total PolygonListResponse.polygons].
  rewrite cards_of_rows, length_map.
  destruct (select_order_by_created_at_desc d) as [|ir rows]; [done|].
  replace (Z.of_nat (length (ir :: rows)) =? 0) with false; [done|].
  symmetry. apply Z.eqb_neq. simpl. lia.
Qed.

(** While the storage layer works, [_refresh_polygon_list] on a page that
    has its list container leaves in it the label of the empty state when
    nothing is stored, and otherwise one card per stored row, rows of later
    [created_at] first; a card shows the name of its row and the date of
    its [created_at], and its delete button is bound to the id and name of
    that row. The table and the notifications are untouched. *)
Theorem sidebar_shows_stored_polygons
    (now : datetime) (w : MapApp.World) (children : list MapApp.Widget)
    (Hcontainer : MapApp.polygon_list_container (MapApp.app w) = Some children) :
  exists rows : list (Z * Row.t),
    rows ≡ₚ map_to_list (table (MapApp.database w))
    /\ StronglySorted created_desc rows
    /\ MapApp._refresh_polygon_list (healthy now) w
       = (MapApp.UiReturn tt,
          MapApp.mk_World
            (MapApp.set_polygon_list_container
               (Some (match rows with
                      | [] => [MapApp.EmptyLabel]
                      | _ => map row_card rows
                      end))
               (MapApp.app w))
            (MapApp.database w) (MapApp.effects w)).
Proof.
  exists (select_order_by_created_at_desc (MapApp.database w)).
  split; [apply select_permutation|]. split; [apply select_sorted|].
  rewrite refresh_run. unfold refreshed. rewrite Hcontainer, sidebar_healthy.
  by destruct (select_order_by_created_at_desc (MapApp.database w)).
Qed.

Lemma sidebar_shows_stored_polygons_witness :
  MapApp.polygon_list_container (MapApp.app sample_world) = Some []
  /\ exists rows : list (Z * Row.t),
    rows ≡ₚ map_to_list (table (MapApp.database sample_world))
    /\ StronglySorted created_desc rows
    /\ MapApp._refresh_polygon_list (healthy t1) sample_world
       = (MapApp.UiReturn tt,
          MapApp.mk_World
            (MapApp.set_polygon_list_container
               (Some (match rows with
                      | [] => [MapApp.EmptyLabel]
                      | _ => map row_card rows
                      end))
               (MapApp.app sample_world))
            (MapApp.database sample_world) (MapApp.effects sample_world)).
Proof.
  split; [reflexivity|].
  apply (sidebar_shows_stored_polygons t1 sample_world []). reflexivity.
Defined.

(** When the storage layer fails while the polygons are listed, the
    sidebar is given the label of the empty state and the map is sent an
    empty list, however many polygons are stored. *)
Theorem listing_failure_empties_the_page
    (env : Env) (w : MapApp.World) (children : list MapApp.Widget)
    (Hcontainer : MapApp.polygon_list_container (MapApp.app w) = Some children)
    (Hfails : faults env OpOpen = true \/ faults env OpExec = true) :
  MapApp._refresh_polygon_list env w
  = (MapApp.UiReturn tt,
     MapApp.mk_World
       (MapApp.set_polygon_list_container (Some [MapApp.EmptyLabel]) (MapApp.app w))
       (MapApp.database w) (MapApp.effects w))
  /\ MapApp._load_all_polygons_to_map env w
     = (MapApp.UiReturn tt,
        add_effect (MapApp.RunJavascript (MapApp.LoadPolygons [])) w).
Proof.
  assert (Hlisting : listing env (MapApp.database w) = PolygonListResponse.mk [] 0).
  { unfold listing, list_polygons, try_except. rewrite list_block_run.
    destruct Hfails as [-> | Hexec]; [done|].
    destruct (faults env OpOpen); [done|]. by rewrite Hexec. }
  rewrite refresh_run, load_run. unfold refreshed, map_loaded.
  by rewrite Hcontainer, Hlisting.
Qed.

Lemma listing_failure_empties_the_page_witness :
  MapApp.polygon_list_container (MapApp.app sample_world) = Some []
  /\ (faults (mk_Env t1 (fault_at OpExec)) OpOpen = true
      \/ faults (mk_Env t1 (fault_at OpExec)) OpExec = true)
  /\ MapApp._refresh_polygon_list (mk_Env t1 (fault_at OpExec)) sample_world
     = (MapApp.UiReturn tt,
        MapApp.mk_World
          (MapApp.set_polygon_list_container (Some [MapApp.EmptyLabel])
                                             (MapApp.app sample_world))
          (MapApp.database sample_world) (MapApp.effects sample_world))
  /\ MapApp._load_all_polygons_to_map (mk_Env t1 (fault_at OpExec)) sample_world
     = (MapApp.UiReturn tt,
        add_effect (MapApp.RunJavascript (MapApp.LoadPolygons [])) sample_world).
Proof.
  assert (H : faults (mk_Env t1 (fault_at OpExec)) OpOpen = true
              \/ faults (mk_Env t1 (fault_at OpExec)) OpExec = true)
    by (right; reflexivity).
  split; [reflexivity|]. split; [exact H|].
  apply (listing_failure_empties_the_page (mk_Env t1 (fault_at OpExec))
           sample_world [] eq_refl H).
Defined.

(** While the storage layer works, saving a drawing that validates to at
    least one ring, under a name that is not blank and has at most 255
    characters once trimmed, on a reachable table: the row is stored under
    the trimmed name, the drawing is cleared, the sidebar (when the page
    has one) holds the card of the new row, and the map is sent a list that
    holds the new polygon. *)
Theorem save_stores_and_shows_polygon
    (coordinates_of : json -> option Coordinates) (name : string)
    (now later latest : datetime) (w : MapApp.World)
    (drawing : json) (c : Coordinates)
    (Hreach : reachable (MapApp.database w))
    (Hdrawing : MapApp.current_drawing_data (MapApp.app w) = Some drawing)
    (Hcoords : coordinates_of drawing = Some c)
    (Hring : c <> [])
    (Hname : strip name <> EmptyString)
    (Hlen : (String.length (strip name) <= 255)%nat) :
  exists (w' : MapApp.World) (payload : list (Coordinates * string)),
    MapApp._save_polygon coordinates_of name (healthy now) (healthy later)
                         (healthy latest) w
    = (MapApp.UiReturn tt, w')
    /\ table (MapApp.database w') !! next_id (MapApp.database w)
       = Some (Row.mk (strip name) c default_style now None)
    /\ MapApp.current_drawing_data (MapApp.app w') = None
    /\ match MapApp.polygon_list_container (MapApp.app w) with
       | Some _ =>
           exists children : list MapApp.Widget,
             MapApp.polygon_list_container (MapApp.app w') = Some children
             /\ row_card (next_id (MapApp.database w),
                          Row.mk (strip name) c default_style now None) ∈ children
       | None => MapApp.polygon_list_container (MapApp.app w') = None
       end
    /\ MapApp.effects w'
       = MapApp.effects w
         ++ [MapApp.Notify (MapApp.MsgSaved name) MapApp.TPositive;
             MapApp.RunJavascript (MapApp.LoadPolygons payload)]
    /\ (c, strip name) ∈ payload.
Proof.
  rewrite save_run.
  assert (Hcond : negb (MapApp.str_bool name) || negb (MapApp.str_bool (strip name))
                  = false).
  { apply orb_false_iff. split; apply negb_false_iff.
    - destruct name; [by exfalso; apply Hname | done].
    - destruct (strip name); [by exfalso; apply Hname | done]. }
  rewrite Hcond, Hdrawing, Hcoords.
  assert (Hvalid : PolygonCreate.validate (save_request name c) = true).
  { unfold PolygonCreate.validate, save_request.
    cbn [PolygonCreate.name].
    rewrite !andb_true_iff, !Nat.leb_le. split; [|done].
    destruct (strip name); [by exfalso; apply Hname | simpl; lia]. }
  rewrite Hvalid.
  pose proof (wf_next_id_fresh _ (reachable_wf _ Hreach)) as Hfresh.
  rewrite (create_polygon_healthy (save_request name c) now _ Hfresh).
  set (d := MapApp.database w) in *.
  set (row := Row.mk (strip name) c default_style now None).
  set (d' := mk_Database (<[next_id d := to_row (new_polygon (save_request name c) now)]>
                            (table d)) (next_id d + 1)).
  assert (Hin : (next_id d, row) ∈ select_order_by_created_at_desc d').
  { rewrite select_permutation. apply elem_of_map_to_list.
    unfold d'. simpl. by rewrite lookup_insert_eq. }
  eexists _, _. split; [reflexivity|].
  unfold map_loaded, add_effect, refreshed, MapApp.set_save_card_visible.
  destruct w as [[me plc cdd sc pdi] d0 eff]. simpl in *.
  split; [by destruct sc, plc; simpl; rewrite lookup_insert_eq|].
  split; [by destruct sc, plc|].
  split; [|split].
  - destruct plc as [children|]; [|by destruct sc].
    exists (sidebar_content (listing (healthy later) d')).
    split; [by destruct sc|].
    rewrite sidebar_healthy.
    destruct (select_order_by_created_at_desc d') as [|ir rows] eqn:Hrows.
    + by apply elem_of_nil in Hin.
    + apply list_elem_of_In, in_map_iff. exists (next_id d0, row).
      split; [done | by apply list_elem_of_In].
  - destruct sc, plc; simpl; by rewrite <- app_assoc.
  - assert (Hpayload : forall app0 eff0,
              MapApp.database (MapApp.mk_World app0 d' eff0) = d') by done.
    assert (Hlisting : PolygonListResponse.polygons (listing (healthy latest) d')
                       = map response_of (select_order_by_created_at_desc d')).
    { unfold listing. by rewrite list_polygons_healthy. }
    destruct sc, plc; simpl; rewrite Hlisting;
      apply list_elem_of_In, in_map_iff;
      exists (response_of (next_id d0, row));
      (split; [done|]); apply in_map_iff; exists (next_id d0, row);
      (split; [done | by apply list_elem_of_In]).
Qed.

Lemma save_stores_and_shows_polygon_witness :
  reachable (MapApp.database sample_world)
  /\ MapApp.current_drawing_data (MapApp.app sample_world) = Some (JList [])
  /\ sample_coordinates_of (JList []) = Some sample_coords
  /\ sample_coords <> []
  /\ strip "  Park " <> EmptyString
  /\ (String.length (strip "  Park ") <= 255)%nat
  /\ exists (w' : MapApp.World) (payload : list (Coordinates * string)),
    MapApp._save_polygon sample_coordinates_of "  Park " (healthy t1) (healthy t1)
                         (healthy t1) sample_world
    = (MapApp.UiReturn tt, w')
    /\ table (MapApp.database w') !! next_id (MapApp.database sample_world)
       = Some (Row.mk (strip "  Park ") sample_coords default_style t1 None)
    /\ MapApp.current_drawing_data (MapApp.app w') = None
    /\ match MapApp.polygon_list_container (MapApp.app sample_world) with
       | Some _ =>
           exists children : list MapApp.Widget,
             MapApp.polygon_list_container (MapApp.app w') = Some children
             /\ row_card (next_id (MapApp.database sample_world),
                          Row.mk (strip "  Park ") sample_coords default_style t1 None)
                ∈ children
       | None => MapApp.polygon_list_container (MapApp.app w') = None
       end
    /\ MapApp.effects w'
       = MapApp.effects sample_world
         ++ [MapApp.Notify (MapApp.MsgSaved "  Park ") MapApp.TPositive;
             MapApp.RunJavascript (MapApp.LoadPolygons payload)]
    /\ (sample_coords, strip "  Park ") ∈ payload.
Proof.
  assert (H1 : sample_coords <> []) by discriminate.
  assert (H2 : strip "  Park " <> EmptyString) by (vm_compute; discriminate).
  assert (H3 : (String.length (strip "  Park ") <= 255)%nat) by (vm_compute; lia).
  split; [exact db_a_reachable|]. split; [reflexivity|]. split; [reflexivity|].
  split; [exact H1|]. split; [exact H2|]. split; [exact H3|].
  apply (save_stores_and_shows_polygon sample_coordinates_of "  Park " t1 t1 t1
           sample_world (JList []) sample_coords db_a_reachable eq_refl eq_refl
           H1 H2 H3).
Defined.

(** ** Deleting from the sidebar *)

Lemma delete_handler_run (polygon_id : Z) (polygon_name : string)
    (env env_refresh env_load : Env) (w : MapApp.World) :
  MapApp._delete_polygon polygon_id polygon_name env env_refresh env_load w =
  (MapApp.UiReturn tt,
   match delete_polygon polygon_id env (MapApp.database w) with
   | (Return true, d) =>
       map_loaded env_load
         (refreshed env_refresh
            (MapApp.mk_World (MapApp.app w) d
               (MapApp.effects w
                ++ [MapApp.Notify (MapApp.MsgDeleted polygon_name) MapApp.TPositive])))
   | (_, d) =>
       MapApp.mk_World (MapApp.app w) d
         (MapApp.effects w ++ [MapApp.Notify MapApp.MsgDeleteFailed MapApp.TNegative])
   end).
Proof.
  unfold MapApp._delete_polygon.
  unfold mbind at 1, MapApp.UI_bind at 1.
  unfold MapApp.call_service at 1, MapApp.ui at 1.
  pose proof (delete_polygon_run polygon_id env (MapApp.database w)) as Hrun.
  destruct (delete_polygon polygon_id env (MapApp.database w)) as [[[|]|e] d].
  - unfold mbind, MapApp.UI_bind. unfold MapApp.notify at 1, MapApp.ui at 1.
    rewrite refresh_run, load_run. reflexivity.
  - reflexivity.
  - exfalso. revert Hrun. case_faults env; try discriminate;
      destruct (table (MapApp.database w) !! polygon_id); simpl; try discriminate;
      case_faults env; discriminate.
Qed.

(** While the storage layer works, the delete button of a page that has
    its list container: for a stored id the row is removed, the deletion is
    announced with the name the button carries, and the refreshed sidebar
    has no card bound to that id; for an id that is not stored the failure
    is announced and nothing else changes. *)
Theorem delete_button_removes_polygon
    (polygon_id : Z) (polygon_name : string) (now later latest : datetime)
    (w : MapApp.World) (children : list MapApp.Widget)
    (Hcontainer : MapApp.polygon_list_container (MapApp.app w) = Some children) :
  match table (MapApp.database w) !! polygon_id with
  | Some _ =>
      exists (w' : MapApp.World) (children' : list MapApp.Widget),
        MapApp._delete_polygon polygon_id polygon_name (healthy now) (healthy later)
                               (healthy latest) w
        = (MapApp.UiReturn tt, w')
        /\ table (MapApp.database w') = delete polygon_id (table (MapApp.database w))
        /\ MapApp.Notify (MapApp.MsgDeleted polygon_name) MapApp.TPositive
           ∈ MapApp.effects w'
        /\ MapApp.polygon_list_container (MapApp.app w') = Some children'
        /\ Some polygon_id ∉ map widget_id children'
  | None =>
      MapApp._delete_polygon polygon_id polygon_name (healthy now) (healthy later)
                             (healthy latest) w
      = (MapApp.UiReturn tt,
         add_effect (MapApp.Notify MapApp.MsgDeleteFailed MapApp.TNegative) w)
  end.
Proof.
  rewrite delete_handler_run, delete_polygon_healthy.
  destruct (table (MapApp.database w) !! polygon_id) as [row|] eqn:Hrow;
    [|by destruct w].
  eexists _, _. split; [reflexivity|].
  unfold map_loaded, add_effect, refreshed. simpl. rewrite Hcontainer. simpl.
  split; [done|]. split.
  { apply elem_of_app. left. apply elem_of_app. right.
    by apply list_elem_of_singleton. }
  split; [reflexivity|].
  rewrite sidebar_healthy.
  set (d' := mk_Database (delete polygon_id (table (MapApp.database w)))
                         (next_id (MapApp.database w))).
  pose proof (select_permutation d') as Hperm.
  destruct (select_order_by_created_at_desc d') as [|ir rows] eqn:Hrows.
  - simpl. intros Hin. apply list_elem_of_singleton in Hin. discriminate.
  - rewrite map_map. intros Hin.
    apply list_elem_of_In, in_map_iff in Hin as ([i r] & Hid & Hin).
    simpl in Hid. injection Hid as ->.
    apply list_elem_of_In in Hin. rewrite Hperm in Hin.
    apply elem_of_map_to_list in Hin. unfold d' in Hin. simpl in Hin.
    by rewrite lookup_delete_eq in Hin.
Qed.

Lemma delete_button_removes_polygon_witness :
  MapApp.polygon_list_container (MapApp.app sample_world) = Some []
  /\ match table (MapApp.database sample_world) !! 1 with
  | Some _ =>
      exists (w' : MapApp.World) (children' : list MapApp.Widget),
        MapApp._delete_polygon 1 "A" (healthy t1) (healthy t1) (healthy t1) sample_world
        = (MapApp.UiReturn tt, w')
        /\ table (MapApp.database w')
           = delete 1 (table (MapApp.database sample_world))
        /\ MapApp.Notify (MapApp.MsgDeleted "A") MapApp.TPositive ∈ MapApp.effects w'
        /\ MapApp.polygon_list_container (MapApp.app w') = Some children'
        /\ Some 1 ∉ map widget_id children'
  | None =>
      MapApp._delete_polygon 1 "A" (healthy t1) (healthy t1) (healthy t1) sample_world
      = (MapApp.UiReturn tt,
         add_effect (MapApp.Notify MapApp.MsgDeleteFailed MapApp.TNegative) sample_world)
  end.
Proof.
  split; [reflexivity|].
  apply (delete_button_removes_polygon 1 "A" t1 t1 t1 sample_world []). reflexivity.
Defined.

(** ** Discarding and receiving a drawing *)

(** After [_cancel_save] or [_clear_current_drawing] there is nothing to
    save: a following [_save_polygon] stores nothing, whatever the name and
    whatever the storage layer would do. *)
Theorem discarded_drawing_is_not_saved
    (coordinates_of : json -> option Coordinates) (name : string)
    (env env_refresh env_load : Env) (w : MapApp.World) :
  MapApp.database
    (MapApp._save_polygon coordinates_of name env env_refresh env_load
                          (MapApp._cancel_save w).2).2
  = MapApp.database w
  /\ MapApp.database
       (MapApp._save_polygon coordinates_of name env env_refresh env_load
                             (MapApp._clear_current_drawing w).2).2
     = MapApp.database w.
Proof.
  destruct w as [[me plc cdd sc pdi] d eff].
  rewrite !save_run. unfold MapApp._cancel_save, MapApp._clear_current_drawing.
  unfold_ui. unfold MapApp.set_save_card_visible. simpl.
  split; destruct (negb (MapApp.str_bool name) || negb (MapApp.str_bool (strip name)));
    try done; by destruct sc.
Qed.

(** [_on_polygon_data_received] never touches the table. An empty text
    changes nothing at all. When [json.loads] raises [JSONDecodeError] the
    handler returns after an error notification, and when it raises
    anything else that exception leaves the handler; in both cases the
    previous drawing stays in place. A decoded value becomes the drawing
    (no drawing, when the value is [None], as for the text [null]); the
    save card, when the page has one, is then visible. *)
Theorem received_data_replaces_drawing_only_when_decoded
    (json_loads : string -> MapApp.loads_result) (value : string)
    (w : MapApp.World) :
  MapApp.database (MapApp._on_polygon_data_received json_loads value w).2
  = MapApp.database w
  /\ if MapApp.str_bool value
     then
       match json_loads value with
       | MapApp.Loaded coordinates =>
           (MapApp._on_polygon_data_received json_loads value w).1
           = MapApp.UiReturn tt
           /\ MapApp.current_drawing_data
                (MapApp.app (MapApp._on_polygon_data_received json_loads value w).2)
              = match coordinates with
                | JNull => None
                | _ => Some coordinates
                end
           /\ MapApp.save_card
                (MapApp.app (MapApp._on_polygon_data_received json_loads value w).2)
              <> Some false
           /\ MapApp.effects (MapApp._on_polygon_data_received json_loads value w).2
              = MapApp.effects w
                ++ [MapApp.Notify MapApp.MsgPolygonDrawn MapApp.TPositive]
       | MapApp.LoadsRaises MapApp.JSONDecodeError =>
           MapApp._on_polygon_data_received json_loads value w
           = (MapApp.UiReturn tt,
              add_effect (MapApp.Notify MapApp.MsgDataError MapApp.TNegative) w)
       | MapApp.LoadsRaises e =>
           MapApp._on_polygon_data_received json_loads value w = (MapApp.UiRaise e, w)
       end
     else MapApp._on_polygon_data_received json_loads value w
          = (MapApp.UiReturn tt, w).
Proof.
  unfold MapApp._on_polygon_data_received. unfold_ui.
  destruct w as [[me plc cdd sc pdi] d eff].
  destruct (MapApp.str_bool value); [|done].
  destruct (json_loads value) as [coordinates|e].
  - unfold MapApp.set_save_card_visible, MapApp.as_attribute. simpl.
    by destruct sc, pdi, coordinates.
  - by destruct e.
Qed.
